(** * pages-index: the manifest generator and the catalog renderer

    A shallow embedding of [scripts/generate-projects.js] (the generator,
    [main]) and of the client-side script that follows it in the same
    source file ([formatDate], [initApp], [render]).

    Conventions of the embedding.
    - A JavaScript string is a [string] holding its UTF-8 encoding; the
      strings are well-formed.  ASCII text is its own bytes.  [trim]
      strips every white space and line terminator code point of
      ECMAScript, and [sort()] without a comparator orders strings by
      their UTF-16 code units.  [toLowerCase] lowers the letters [A]-[Z]
      and leaves every other character alone: what is stated of lower-cased
      text is stated of this lowering.
    - An object property that may be absent ([undefined]) is an [option].
    - A JavaScript number produced by subtracting two dates is an
      [option Z]: [None] is [NaN].  Only its sign is used by the code, and
      the sign of a difference of two time values is exact in doubles.
    - [Date.parse] and the local time zone are not fixed by the program:
      they are section variables.  [Iso.parse] and [Iso.utc] are concrete
      instances on which everything evaluates. *)

From Stdlib Require Import List String Ascii ZArith Bool Lia Arith.
From Stdlib Require Import Sorting.Permutation Sorting.Sorted.
From Stdlib Require Import Numbers.DecimalString.
Import ListNotations.

Local Open Scope string_scope.
Local Open Scope list_scope.
Local Open Scope Z_scope.

(** ** Strings *)

Module Str.

(** [String.prototype.toLowerCase], on the letters [A]-[Z]; the bytes of
    every other character are kept. *)
Definition lower_char (c : ascii) : ascii :=
  let n := nat_of_ascii c in
  if (65 <=? n)%nat && (n <=? 90)%nat then ascii_of_nat (n + 32) else c.

Fixpoint toLowerCase (s : string) : string :=
  match s with
  | EmptyString => EmptyString
  | String c s' => String (lower_char c) (toLowerCase s')
  end.

(** The string of the given bytes. *)
Definition bytes (l : list nat) : string :=
  fold_right (fun n s => String (ascii_of_nat n) s) EmptyString l.

(** The code points that [trim] strips (ECMAScript WhiteSpace and
    LineTerminator), each as its UTF-8 encoding. *)
Definition whiteSpace : list string :=
  map bytes
    [ [9]; [10]; [11]; [12]; [13]; [32];           (* TAB LF VT FF CR SP *)
      [194; 160];                                   (* U+00A0 *)
      [225; 154; 128];                              (* U+1680 *)
      [226; 128; 128]; [226; 128; 129]; [226; 128; 130]; [226; 128; 131];
      [226; 128; 132]; [226; 128; 133]; [226; 128; 134]; [226; 128; 135];
      [226; 128; 136]; [226; 128; 137]; [226; 128; 138];  (* U+2000..U+200A *)
      [226; 128; 168]; [226; 128; 169];             (* U+2028 U+2029 *)
      [226; 128; 175];                              (* U+202F *)
      [226; 129; 159];                              (* U+205F *)
      [227; 128; 128];                              (* U+3000 *)
      [239; 187; 191] ]%nat.                        (* U+FEFF *)

(** [s] without its prefix [t], when it begins with [t]. *)
Fixpoint drop_prefix (t s : string) : option string :=
  match t with
  | EmptyString => Some s
  | String a t' =>
      match s with
      | EmptyString => None
      | String b s' => if Ascii.eqb a b then drop_prefix t' s' else None
      end
  end.

(** [s] without the one of [toks] it begins with. *)
Fixpoint strip_first (toks : list string) (s : string) : option string :=
  match toks with
  | [] => None
  | t :: toks' =>
      match drop_prefix t s with
      | Some r => Some r
      | None => strip_first toks' s
      end
  end.

(** Strips white space code points from the front, at most [fuel] of
    them. *)
Fixpoint strip_all (fuel : nat) (s : string) : string :=
  match fuel with
  | O => s
  | S fuel' =>
      match strip_first whiteSpace s with
      | Some r => strip_all fuel' r
      | None => s
      end
  end.

(** [String.prototype.trimStart]: a string has no more white space code
    points than bytes. *)
Definition trimStart (s : string) : string := strip_all (String.length s) s.

(** The string consists of white space only. *)
Definition all_ws (s : string) : bool :=
  match trimStart s with
  | EmptyString => true
  | _ => false
  end.

(** [String.prototype.trimEnd]: drops the longest suffix that consists of
    white space only. *)
Fixpoint trimEnd (s : string) : string :=
  match s with
  | EmptyString => EmptyString
  | String c s' => if all_ws s then EmptyString else String c (trimEnd s')
  end.

(** [String.prototype.trim]. *)
Definition trim (s : string) : string := trimEnd (trimStart s).

Fixpoint startsWith (s q : string) {struct q} : bool :=
  match q with
  | EmptyString => true
  | String a q' =>
      match s with
      | EmptyString => false
      | String b s' => Ascii.eqb a b && startsWith s' q'
      end
  end.

(** [String.prototype.includes]: [q] occurs in [s] at some position. *)
Fixpoint includes (s q : string) : bool :=
  startsWith s q ||
  match s with
  | EmptyString => false
  | String _ s' => includes s' q
  end.

(** Truthiness of a string value: the empty string is falsy. *)
Definition truthy (s : string) : bool :=
  match s with EmptyString => false | _ => true end.

(** Truthiness of a property that may be absent. *)
Definition truthy_opt (o : option string) : bool :=
  match o with Some s => truthy s | None => false end.

(** [o || dflt] for a string property. *)
Definition or_else (o : option string) (dflt : string) : string :=
  match o with
  | Some s => if truthy s then s else dflt
  | None => dflt
  end.

(** [String(n)] for an integer. *)
Definition ofZ (z : Z) : string := NilZero.string_of_int (Z.to_int z).

Definition ofNat (n : nat) : string := NilZero.string_of_uint (Nat.to_uint n).

(** [s.padStart(2, '0')]. *)
Definition padStart2 (s : string) : string :=
  match String.length s with
  | 0%nat => "00"
  | 1%nat => ("0" ++ s)%string
  | _ => s
  end.

(** The UTF-16 code units of a string: one for a code point below
    U+10000, a surrogate pair above.  A byte that is not part of a
    well-formed sequence is kept as it is. *)
Definition byte (c : ascii) : Z := Z.of_nat (nat_of_ascii c).

Definition cont (c : ascii) : Z := byte c - 128.

Fixpoint codeUnits (s : string) : list Z :=
  match s with
  | EmptyString => []
  | String b0 s1 =>
      let n0 := byte b0 in
      if n0 <? 192 then n0 :: codeUnits s1
      else
        match s1 with
        | EmptyString => [n0]
        | String b1 s2 =>
            if n0 <? 224 then ((n0 - 192) * 64 + cont b1) :: codeUnits s2
            else
              match s2 with
              | EmptyString => n0 :: codeUnits s1
              | String b2 s3 =>
                  if n0 <? 240
                  then ((n0 - 224) * 4096 + cont b1 * 64 + cont b2) :: codeUnits s3
                  else
                    match s3 with
                    | EmptyString => n0 :: codeUnits s1
                    | String b3 s4 =>
                        let cp := (n0 - 240) * 262144 + cont b1 * 4096
                                  + cont b2 * 64 + cont b3 - 65536 in
                        (55296 + cp / 1024) :: (56320 + cp mod 1024) :: codeUnits s4
                    end
              end
        end
  end.

(** The order of two sequences of code units: that of [<] on strings. *)
Fixpoint compare_units (x y : list Z) : comparison :=
  match x, y with
  | [], [] => Eq
  | [], _ :: _ => Lt
  | _ :: _, [] => Gt
  | a :: x', b :: y' =>
      match a ?= b with
      | Eq => compare_units x' y'
      | c => c
      end
  end.

Definition compare (a b : string) : comparison :=
  compare_units (codeUnits a) (codeUnits b).

(** Facts about the white space code points, decided by computation. *)
Definition is_letter (c : ascii) : bool :=
  let n := nat_of_ascii c in
  ((65 <=? n)%nat && (n <=? 90)%nat) || ((97 <=? n)%nat && (n <=? 122)%nat).

Fixpoint no_letter (s : string) : bool :=
  match s with
  | EmptyString => true
  | String c s' => negb (is_letter c) && no_letter s'
  end.

Definition later_bytes (t : string) : list ascii :=
  match t with
  | EmptyString => []
  | String _ t' => list_ascii_of_string t'
  end.

Definition first_byte (t : string) : option ascii :=
  match t with
  | EmptyString => None
  | String a _ => Some a
  end.

Definition tokens_nonempty : bool :=
  forallb (fun t => negb (String.eqb t "")) whiteSpace.

(** No encoding is the beginning of another. *)
Definition prefix_free : bool :=
  forallb (fun t1 =>
    forallb (fun t2 =>
      match drop_prefix t1 t2 with
      | Some _ => String.eqb t1 t2
      | None => true
      end) whiteSpace) whiteSpace.

(** No encoding begins with a byte that another has after its first. *)
Definition no_token_starts_inside : bool :=
  forallb (fun t1 =>
    forallb (fun t2 =>
      match first_byte t2 with
      | Some a => negb (existsb (Ascii.eqb a) (later_bytes t1))
      | None => true
      end) whiteSpace) whiteSpace.

(** The specification of [includes]: [q] is a contiguous part of [s]. *)
Definition substring_of (q s : string) : Prop :=
  exists pre suf, s = (pre ++ q ++ suf)%string.

End Str.

(** ** Dates *)

Module JSDate.

Definition msPerDay : Z := 86400000.

(** [Day(t)]: the day number of a time value. *)
Definition Day (t : Z) : Z := t / msPerDay.

(** The civil date (year, month 1..12, day 1..31) of a day number counted
    from 1970-01-01, in the proleptic Gregorian calendar. *)
Definition civil_from_days (days : Z) : Z * Z * Z :=
  let z := days + 719468 in
  let era := z / 146097 in
  let doe := z - era * 146097 in
  let yoe := (doe - doe / 1460 + doe / 36524 - doe / 146096) / 365 in
  let doy := doe - (365 * yoe + yoe / 4 - yoe / 100) in
  let mp := (5 * doy + 2) / 153 in
  let d := doy - (153 * mp + 2) / 5 + 1 in
  let m := if mp <? 10 then mp + 3 else mp - 9 in
  let y := yoe + era * 400 in
  ((if m <=? 2 then y + 1 else y), m, d).

(** The day number of a civil date. *)
Definition days_from_civil (y m d : Z) : Z :=
  let y' := if m <=? 2 then y - 1 else y in
  let era := y' / 400 in
  let yoe := y' - era * 400 in
  let doy := (153 * (if 2 <? m then m - 3 else m + 9) + 2) / 5 + d - 1 in
  let doe := yoe * 365 + yoe / 4 - yoe / 100 + doy in
  era * 146097 + doe - 719468.

Definition YearFromTime (t : Z) : Z :=
  let '(y, _, _) := civil_from_days (Day t) in y.

(** Months are numbered from 0, as [getMonth] returns them. *)
Definition MonthFromTime (t : Z) : Z :=
  let '(_, m, _) := civil_from_days (Day t) in m - 1.

Definition DateFromTime (t : Z) : Z :=
  let '(_, _, d) := civil_from_days (Day t) in d.

End JSDate.

(** A concrete [Date.parse] for the two forms the manifest holds:
    [YYYY-MM-DD] and [YYYY-MM-DDTHH:mm:ssZ], both read as UTC.  Every other
    string is taken as unparseable; engines accept more forms than these. *)
Module Iso.

Definition digit (c : ascii) : option Z :=
  let n := nat_of_ascii c in
  if (48 <=? n)%nat && (n <=? 57)%nat then Some (Z.of_nat (n - 48)) else None.

Fixpoint number_from (acc : Z) (s : string) : option Z :=
  match s with
  | EmptyString => Some acc
  | String c s' =>
      match digit c with
      | Some d => number_from (10 * acc + d) s'
      | None => None
      end
  end.

(** A field of exactly [n] decimal digits starting at position [i]. *)
Definition field (i n : nat) (s : string) : option Z :=
  let f := String.substring i n s in
  if (String.length f =? n)%nat then number_from 0 f else None.

Definition sep (i : nat) (c : string) (s : string) : bool :=
  String.eqb (String.substring i 1 s) c.

Definition leap (y : Z) : bool :=
  ((y mod 4 =? 0) && negb (y mod 100 =? 0)) || (y mod 400 =? 0).

Definition days_in_month (y m : Z) : Z :=
  if m =? 2 then (if leap y then 29 else 28)
  else if (m =? 4) || (m =? 6) || (m =? 9) || (m =? 11) then 30 else 31.

Definition date_part (s : string) : option Z :=
  match field 0 4 s, field 5 2 s, field 8 2 s with
  | Some y, Some m, Some d =>
      if sep 4 "-" s && sep 7 "-" s
         && (1 <=? m) && (m <=? 12) && (1 <=? d) && (d <=? days_in_month y m)
      then Some (JSDate.days_from_civil y m d * JSDate.msPerDay)
      else None
  | _, _, _ => None
  end.

Definition time_part (s : string) : option Z :=
  match field 11 2 s, field 14 2 s, field 17 2 s with
  | Some h, Some mi, Some sec =>
      if sep 10 "T" s && sep 13 ":" s && sep 16 ":" s && sep 19 "Z" s
         && (h <=? 23) && (mi <=? 59) && (sec <=? 59)
      then Some (((h * 60 + mi) * 60 + sec) * 1000)
      else None
  | _, _, _ => None
  end.

Definition parse (s : string) : option Z :=
  match String.length s with
  | 10%nat => date_part s
  | 20%nat =>
      match date_part s, time_part s with
      | Some d, Some t => Some (d + t)
      | _, _ => None
      end
  | _ => None
  end.

(** The offset of local time from UTC, for a host whose zone is UTC. *)
Definition utc (t : Z) : Z := 0.

End Iso.

(** ** The data model *)

(** A Project Record, as a JavaScript object: the generator sets every
    property, the renderer reads a parsed JSON document and guards against
    properties that are absent. *)
Record project : Type := {
  name : option string;
  repo : option string;
  url : option string;
  description : option string;
  topics : option (list string);
  date : option string;
  screenshot : option string
}.

(** The three controls: the values of [#search-input], [#tag-filter] and
    [#sort-order].  The tag selector's choice for all tags has the empty
    value. *)
Record controls : Type := {
  searchInput : string;
  tagFilter : string;
  sortOrder : string
}.

(** What [fetch('projects.json')] gives the renderer: the promise rejects
    (no response), or a response arrives with a status and a body that
    [res.json()] reads as a manifest or rejects.  A body that is JSON and
    not an array of records is outside the model. *)
Inductive body : Type :=
| Json (data : list project)
| NotJson (err : string).

Inductive fetched : Type :=
| Rejected (err : string)
| Response (status : Z) (b : body).

(** What the GitHub REST API hands to the generator. *)
Module GitHub.

Record repository : Type := {
  name : string;
  fork : bool;
  archived : bool;
  description : option string;   (* [null] when the repository has none *)
  updated_at : string
}.

Record pages : Type := { html_url : option string }.

(** A rejected request: [err.status] (absent for errors that are not HTTP
    responses) and [err.message]. *)
Record error : Type := { status : option Z; message : string }.

Inductive response (A : Type) : Type :=
| Ok (data : A)
| Fail (err : error).
Arguments Ok {A} data.
Arguments Fail {A} err.

(** The capabilities of the client the generator uses. *)
Record octokit : Type := {
  listForUser : string -> response (list repository);
  getPages : string -> string -> response pages;
  getAllTopics : string -> string -> response (list string)
}.

End GitHub.

(** [process.env], the two variables the generator reads. *)
Record process_env : Type := {
  GITHUB_USER : option string;
  GITHUB_TOKEN : option string
}.

(** ** Effects of the generator

    A run is a completion together with the events it produced, in order. *)
Module Effect.

Inductive logged : Type :=
| Text (s : string)
| ErrorObject (e : GitHub.error).

Inductive event : Type :=
| ConsoleError (what : logged)
| ConsoleWarn (msg : string)
| ConsoleLog (msg : string)
| ListForUser (username : string) (per_page : Z)
| GetPages (owner repo : string)
| GetAllTopics (owner repo : string)
| WriteFile (path : string) (json : list project).

(** Is the event a call over the network? *)
Definition is_network (e : event) : bool :=
  match e with
  | ListForUser _ _ | GetPages _ _ | GetAllTopics _ _ => true
  | _ => false
  end.

Inductive completion (A : Type) : Type :=
| Normal (a : A)
| Throw (e : GitHub.error)
| Exit (code : Z).
Arguments Normal {A} a.
Arguments Throw {A} e.
Arguments Exit {A} code.

Definition M (A : Type) : Type := (completion A * list event)%type.

Definition ret {A} (a : A) : M A := (Normal a, []).

Definition bind {A B} (m : M A) (f : A -> M B) : M B :=
  match m with
  | (Normal a, t) => let '(c, t') := f a in (c, t ++ t')
  | (Throw e, t) => (Throw e, t)
  | (Exit k, t) => (Exit k, t)
  end.

Definition emit (e : event) : M unit := (Normal tt, [e]).

Definition throw {A} (e : GitHub.error) : M A := (Throw e, []).

(** [process.exit(code)]: nothing after it runs. *)
Definition process_exit {A} (code : Z) : M A := (Exit code, []).

(** [try { m } catch (err) { h err }]. *)
Definition try_catch {A} (m : M A) (h : GitHub.error -> M A) : M A :=
  match m with
  | (Throw e, t) => let '(c, t') := h e in (c, t ++ t')
  | other => other
  end.

(** Awaiting a request: the call is made, then its response is returned
    or thrown. *)
Definition await {A} (call : event) (r : GitHub.response A) : M A :=
  match r with
  | GitHub.Ok data => (Normal data, [call])
  | GitHub.Fail err => (Throw err, [call])
  end.

End Effect.

Notation "x <- m ;; k" := (Effect.bind m (fun x => k))
  (at level 61, m at next level, right associativity).
Notation "m ;; k" := (Effect.bind m (fun _ => k))
  (at level 61, right associativity).

(** ** [Array.prototype.sort]

    The comparator returns a number; [NaN] is read as [+0].  The sort is
    stable.  It is modelled as a stable insertion sort.  Where the
    comparator is consistent on the elements (as it is when all dates
    parse, or when every pair ties) every conforming sort returns this
    list.  Where it is not (an unparseable date among records of different
    timestamps) the standard leaves the order to the engine, and only what
    holds of every rearrangement is stated of the result. *)
Module JSArray.

Section Sort.
Context {A : Type} (comparefn : A -> A -> option Z).

Definition SortCompare (x y : A) : Z :=
  match comparefn x y with
  | Some v => v
  | None => 0
  end.

Fixpoint insert (x : A) (l : list A) : list A :=
  match l with
  | [] => [x]
  | y :: l' => if SortCompare x y <=? 0 then x :: l else y :: insert x l'
  end.

Fixpoint sort (l : list A) : list A :=
  match l with
  | [] => []
  | x :: l' => insert x (sort l')
  end.

End Sort.

(** [a - b] on the time values of two dates; an invalid date gives [NaN]. *)
Definition date_sub (a b : option Z) : option Z :=
  match a, b with
  | Some x, Some y => Some (x - y)
  | _, _ => None
  end.

End JSArray.

(** ** A sample account and a sample manifest

    Concrete inputs on which the definitions evaluate. *)
Module Sample.

Definition site : GitHub.repository :=
  {| GitHub.name := "site"; GitHub.fork := false; GitHub.archived := false;
     GitHub.description := Some "My Site";
     GitHub.updated_at := "2023-01-01T00:00:00Z" |}.

Definition forked : GitHub.repository :=
  {| GitHub.name := "forked"; GitHub.fork := true; GitHub.archived := false;
     GitHub.description := None;
     GitHub.updated_at := "2024-03-01T00:00:00Z" |}.

Definition nopages : GitHub.repository :=
  {| GitHub.name := "nopages"; GitHub.fork := false; GitHub.archived := false;
     GitHub.description := Some "no site";
     GitHub.updated_at := "2024-01-01T00:00:00Z" |}.

Definition broken : GitHub.repository :=
  {| GitHub.name := "broken"; GitHub.fork := false; GitHub.archived := false;
     GitHub.description := None;
     GitHub.updated_at := "2024-02-01T00:00:00Z" |}.

Definition docs : GitHub.repository :=
  {| GitHub.name := "docs"; GitHub.fork := false; GitHub.archived := false;
     GitHub.description := None;
     GitHub.updated_at := "2024-06-01T10:00:00Z" |}.

Definition repos : list GitHub.repository :=
  [site; forked; nopages; broken; docs].

Definition not_found : GitHub.error :=
  {| GitHub.status := Some 404; GitHub.message := "Not Found" |}.

Definition server_error : GitHub.error :=
  {| GitHub.status := Some 500; GitHub.message := "Server Error" |}.

Definition rate_limited : GitHub.error :=
  {| GitHub.status := Some 403; GitHub.message := "rate limit exceeded" |}.

Definition page_of (n : string) : GitHub.pages :=
  {| GitHub.html_url := Some ("https://octo.github.io/" ++ n ++ "/")%string |}.

(** Every repository but [nopages] and [broken] has a page, [forked]
    included; the topics of [docs] cannot be fetched. *)
Definition client : GitHub.octokit :=
  {| GitHub.listForUser := fun username =>
       if String.eqb username "octo" then GitHub.Ok repos
       else GitHub.Fail not_found;
     GitHub.getPages := fun _ n =>
       if String.eqb n "nopages" then GitHub.Fail not_found
       else if String.eqb n "broken" then GitHub.Fail server_error
       else GitHub.Ok (page_of n);
     GitHub.getAllTopics := fun _ n =>
       if String.eqb n "docs" then GitHub.Fail rate_limited
       else GitHub.Ok ["blog"] |}.

Definition env : process_env :=
  {| GITHUB_USER := Some "octo"; GITHUB_TOKEN := Some "secret" |}.

Definition env_without_token : process_env :=
  {| GITHUB_USER := Some "octo"; GITHUB_TOKEN := None |}.

Definition fs_writeFile (path : string) (json : list project) : GitHub.response unit :=
  GitHub.Ok tt.

Definition path_resolve (f : string) : string := ("/work/" ++ f)%string.

Definition docs_record : project :=
  {| name := Some "docs"; repo := Some "docs";
     url := Some "https://octo.github.io/docs/";
     description := Some ""; topics := Some [];
     date := Some "2024-06-01T10:00:00Z"; screenshot := Some "" |}.

Definition site_record : project :=
  {| name := Some "site"; repo := Some "site";
     url := Some "https://octo.github.io/site/";
     description := Some "My Site"; topics := Some ["blog"];
     date := Some "2023-01-01T00:00:00Z"; screenshot := Some "" |}.

(** The manifest of the sample account. *)
Definition manifest : list project := [docs_record; site_record].

(** The two records of the example of the specification. *)
Definition A : project :=
  {| name := Some "A"; repo := None; url := None; description := None;
     topics := Some ["x"]; date := Some "2023-01-01"; screenshot := None |}.

Definition B : project :=
  {| name := Some "B"; repo := None; url := None; description := None;
     topics := Some ["y"]; date := Some "2023-06-01"; screenshot := None |}.

(** A record whose date is present and is not a date. *)
Definition X : project :=
  {| name := Some "X"; repo := None; url := None; description := None;
     topics := Some []; date := Some "not-a-date"; screenshot := None |}.

Definition ctl (text tag sortVal : string) : controls :=
  {| searchInput := text; tagFilter := tag; sortOrder := sortVal |}.

(** A listing that cannot be fetched, a file that cannot be written. *)
Definition client_down : GitHub.octokit :=
  {| GitHub.listForUser := fun _ => GitHub.Fail server_error;
     GitHub.getPages := GitHub.getPages client;
     GitHub.getAllTopics := GitHub.getAllTopics client |}.

Definition disk_full : GitHub.error :=
  {| GitHub.status := None; GitHub.message := "ENOSPC" |}.

Definition fs_fails (path : string) (json : list project) : GitHub.response unit :=
  GitHub.Fail disk_full.

Definition env_empty_user : process_env :=
  {| GITHUB_USER := Some ""; GITHUB_TOKEN := Some "secret" |}.

(** A manifest whose records carry topics, some of them twice. *)
Definition C : project :=
  {| name := Some "C"; repo := None; url := None; description := Some "third";
     topics := Some ["y"; "a"; "x"]; date := Some "2023-06-01"; screenshot := None |}.

End Sample.

Section Program.

(** [Date.parse]: the time value of a date string, [None] when the string
    is not a date ([getTime()] is [NaN]). *)
Variable Date_parse : string -> option Z.

(** The offset of local time at a time value, in milliseconds. *)
Variable LocalTZA : Z -> Z.

(** The environment, the API client, the outcome of the file write and
    [path.resolve] of one run of the generator. *)
Variable env : process_env.
Variable client : GitHub.octokit.
Variable fs_writeFile : string -> list project -> GitHub.response unit.
Variable path_resolve : string -> string.

(** [new Date(v)] followed by a numeric conversion: the time value. *)
Definition newDate (v : option string) : option Z :=
  match v with
  | Some s => Date_parse s
  | None => None
  end.

(** *** The generator: [main] *)

(** [(a, b) => new Date(b.date) - new Date(a.date)]. *)
Definition by_date_desc (a b : project) : option Z :=
  JSArray.date_sub (newDate (date b)) (newDate (date a)).

Definition pages_warning (r : GitHub.repository) (err : GitHub.error) : string :=
  ("获取仓库 " ++ GitHub.name r ++ " pages 配置失败: " ++ GitHub.message err)%string.

Definition topics_warning (r : GitHub.repository) (err : GitHub.error) : string :=
  ("获取仓库 " ++ GitHub.name r ++ " topics 失败: " ++ GitHub.message err)%string.

(** [err.status === 404]. *)
Definition is_404 (err : GitHub.error) : bool :=
  match GitHub.status err with
  | Some st => st =? 404
  | None => false
  end.

(** The request for the pages configuration, with its [catch]: [None]
    stands for the [continue] of both branches of the handler. *)
Definition fetch_pages (owner : string) (r : GitHub.repository)
  : Effect.M (option GitHub.pages) :=
  Effect.try_catch
    (res <- Effect.await (Effect.GetPages owner (GitHub.name r))
                         (GitHub.getPages client owner (GitHub.name r)) ;;
     Effect.ret (Some res))
    (fun err =>
       if is_404 err then Effect.ret None
       else Effect.emit (Effect.ConsoleWarn (pages_warning r err)) ;;
            Effect.ret None).

(** The request for the topics, with its [catch]: [topics] keeps its
    initial value [[]] when the request fails. *)
Definition fetch_topics (owner : string) (r : GitHub.repository)
  : Effect.M (list string) :=
  Effect.try_catch
    (names <- Effect.await (Effect.GetAllTopics owner (GitHub.name r))
                           (GitHub.getAllTopics client owner (GitHub.name r)) ;;
     Effect.ret names)
    (fun err =>
       Effect.emit (Effect.ConsoleWarn (topics_warning r err)) ;;
       Effect.ret []).

Definition make_project (r : GitHub.repository) (pageUrl : option string)
    (topics : list string) : project :=
  {| name := Some (GitHub.name r);
     repo := Some (GitHub.name r);
     url := pageUrl;
     description := Some (Str.or_else (GitHub.description r) "");
     topics := Some topics;
     date := Some (GitHub.updated_at r);
     screenshot := Some "" |}.

(** One turn of [for (const repo of repos)]: the array [projects] before
    the turn, and after it. *)
Definition loop_body (owner : string) (r : GitHub.repository)
    (projects : list project) : Effect.M (list project) :=
  if GitHub.fork r || GitHub.archived r then Effect.ret projects
  else
    pagesConfig <- fetch_pages owner r ;;
    match pagesConfig with
    | None => Effect.ret projects
    | Some cfg =>
        let pageUrl := GitHub.html_url cfg in
        topics <- fetch_topics owner r ;;
        Effect.ret (projects ++ [make_project r pageUrl topics])
    end.

Fixpoint for_of (owner : string) (repos : list GitHub.repository)
    (projects : list project) : Effect.M (list project) :=
  match repos with
  | [] => Effect.ret projects
  | r :: rest =>
      projects' <- loop_body owner r projects ;;
      for_of owner rest projects'
  end.

Definition done_message (n : nat) (outputPath : string) : string :=
  ("已生成 " ++ Str.ofNat n ++ " 个项目并写入 " ++ outputPath)%string.

Definition no_user_message : string := "环境变量 GITHUB_USER 未设置".
Definition no_token_message : string := "环境变量 GITHUB_TOKEN 未设置".

Definition main : Effect.M unit :=
  let owner := GITHUB_USER env in
  let token := GITHUB_TOKEN env in
  match owner with
  | Some owner' =>
      if negb (Str.truthy owner') then
        Effect.emit (Effect.ConsoleError (Effect.Text no_user_message)) ;;
        Effect.process_exit 1
      else if negb (Str.truthy_opt token) then
        Effect.emit (Effect.ConsoleError (Effect.Text no_token_message)) ;;
        Effect.process_exit 1
      else
        repos <- Effect.await (Effect.ListForUser owner' 100)
                              (GitHub.listForUser client owner') ;;
        projects <- for_of owner' repos [] ;;
        let projects := JSArray.sort by_date_desc projects in
        let outputPath := path_resolve "projects.json" in
        Effect.await (Effect.WriteFile outputPath projects)
                     (fs_writeFile outputPath projects) ;;
        Effect.emit (Effect.ConsoleLog (done_message (List.length projects) outputPath))
  | None =>
      Effect.emit (Effect.ConsoleError (Effect.Text no_user_message)) ;;
      Effect.process_exit 1
  end.

(** The script: [main().catch(err => { console.error(err); process.exit(1) })].
    The exit status of the process and the events of the run. *)
Definition script : Z * list Effect.event :=
  match main with
  | (Effect.Normal _, t) => (0, t)
  | (Effect.Exit code, t) => (code, t)
  | (Effect.Throw err, t) => (1, t ++ [Effect.ConsoleError (Effect.ErrorObject err)])
  end.

(** The manifests written during a run. *)
Fixpoint written (t : list Effect.event) : list (list project) :=
  match t with
  | [] => []
  | Effect.WriteFile _ json :: t' => json :: written t'
  | _ :: t' => written t'
  end.

(** *** The renderer: [formatDate], [render] *)

(** [formatDate(isoString)]: [YYYY-MM-DD] in local time, or [''] for an
    invalid date. *)
Definition formatDate (isoString : string) : string :=
  match Date_parse isoString with
  | None => ""
  | Some t =>
      let local := t + LocalTZA t in
      let y := JSDate.YearFromTime local in
      let m := Str.padStart2 (Str.ofZ (JSDate.MonthFromTime local + 1)) in
      let d := Str.padStart2 (Str.ofZ (JSDate.DateFromTime local)) in
      (Str.ofZ y ++ "-" ++ m ++ "-" ++ d)%string
  end.

Definition query_of (c : controls) : string :=
  Str.toLowerCase (Str.trim (searchInput c)).

(** [p.f && p.f.toLowerCase().includes(query)], as a truth value. *)
Definition field_matches (f : option string) (query : string) : bool :=
  match f with
  | Some v => Str.truthy v && Str.includes (Str.toLowerCase v) query
  | None => false
  end.

(** [Array.isArray(p.topics) && p.topics.includes(selectedTag)]. *)
Definition has_topic (ts : option (list string)) (selectedTag : string) : bool :=
  match ts with
  | Some l => existsb (String.eqb selectedTag) l
  | None => false
  end.

(** The callback of [projects.filter]. *)
Definition keep (query selectedTag : string) (p : project) : bool :=
  let inName := field_matches (name p) query in
  let inDesc := field_matches (description p) query in
  let matchesSearch := negb (Str.truthy query) || inName || inDesc in
  let matchesTag := negb (Str.truthy selectedTag) || has_topic (topics p) selectedTag in
  matchesSearch && matchesTag.

(** The callback of [filtered.sort]. *)
Definition by_date (sortVal : string) (a b : project) : option Z :=
  let aDate := newDate (date a) in
  let bDate := newDate (date b) in
  if String.eqb sortVal "asc" then JSArray.date_sub aDate bDate
  else JSArray.date_sub bDate aDate.

(** The records shown, in the order shown. *)
Definition filtered (projects : list project) (c : controls) : list project :=
  JSArray.sort (by_date (sortOrder c))
    (filter (keep (query_of c) (tagFilter c)) projects).

(** What one card of the grid carries. *)
Record card : Type := {
  link_href : string;
  img_src : string;
  card_title : string;
  card_desc : string;
  tags : list string;
  update_date : string
}.

Definition date_prefix : string := "更新于 ".

Definition make_card (p : project) : card :=
  {| link_href := Str.or_else (url p) "#";
     img_src := Str.or_else (screenshot p) "placeholder_light_gray_block.png";
     card_title := Str.or_else (name p) "未命名项目";
     card_desc := Str.or_else (description p) "";
     tags := match topics p with Some l => l | None => [] end;
     update_date :=
       match date p with
       | Some d => if Str.truthy d then (date_prefix ++ formatDate d)%string else ""
       | None => ""
       end |}.

(** [render()]: the cards of the grid after a render. *)
Definition render (projects : list project) (c : controls) : list card :=
  map make_card (filtered projects c).

(** *** Vocabulary of the properties *)

(** The records one turn of the loop adds, and the events it produces. *)
Definition turn_records (owner : string) (r : GitHub.repository) : list project :=
  match fst (loop_body owner r []) with
  | Effect.Normal ps => ps
  | _ => []
  end.

Definition turn_events (owner : string) (r : GitHub.repository) : list Effect.event :=
  snd (loop_body owner r []).

Definition flagged (r : GitHub.repository) : bool :=
  GitHub.fork r || GitHub.archived r.

(** [text] is a case-insensitive substring of a property. *)
Definition ci_substring (text : string) (f : option string) : Prop :=
  exists v, f = Some v /\
            Str.substring_of (Str.toLowerCase text) (Str.toLowerCase v).

(** The render predicate in the words of the specification, for a search
    text and a selected tag. *)
Definition shown_when (text tag : string) (p : project) : Prop :=
  (text = "" \/ ci_substring text (name p) \/ ci_substring text (description p))
  /\ (tag = "" \/ exists l, topics p = Some l /\ In tag l).

Definition unparseable (p : project) : Prop := newDate (date p) = None.

(** Every record with an unparseable date comes after every record with a
    parseable one. *)
Definition unparseable_last (l : list project) : Prop :=
  forall i j x y,
    nth_error l i = Some x -> nth_error l j = Some y ->
    unparseable x -> ~ unparseable y -> (j < i)%nat.

(** [a] is at least as recent as [b]; both dates are parseable. *)
Definition ge_date (a b : project) : Prop :=
  exists ta tb, newDate (date a) = Some ta /\ newDate (date b) = Some tb /\ ta >= tb.

(** Adjacent records are in descending order of their time values. *)
Definition date_descending (l : list project) : Prop :=
  forall i a b,
    nth_error l i = Some a -> nth_error l (S i) = Some b -> ge_date a b.

(** *** The renderer: [initApp], [loadProjects] *)

(** [topicSet.add(t)]: a [Set] keeps its elements in insertion order and
    ignores an element it has. *)
Definition Set_add (t : string) (set : list string) : list string :=
  if existsb (String.eqb t) set then set else set ++ [t].

(** The [forEach] over the projects that fills [topicSet]. *)
Definition topicSet (projects : list project) : list string :=
  fold_left
    (fun set p =>
       match topics p with
       | Some ts => fold_left (fun set' t => Set_add t set') ts set
       | None => set
       end)
    projects [].

(** The comparison of [sort()] without a comparator: strings are ordered
    by their UTF-16 code units. *)
Definition default_compare (a b : string) : option Z :=
  Some match Str.compare a b with
       | Lt => -1
       | Eq => 0
       | Gt => 1
       end.

(** [Array.from(topicSet).sort()]: the options appended to the tag
    selector, in order. *)
Definition topic_options (projects : list project) : list string :=
  JSArray.sort default_compare (topicSet projects).

(** The page after [initApp(projects)]: the options added to the tag
    selector and the cards of the grid after the initial [render()]; and
    what [console.error] received. *)
Record page : Type := {
  tag_options : list string;
  grid : list card;
  console_errors : list string
}.

Definition initApp (projects : list project) (c : controls) : page :=
  {| tag_options := topic_options projects;
     grid := render projects c;
     console_errors := [] |}.

(** [res.ok]: the status is in the range 200-299. *)
Definition res_ok (status : Z) : bool := (200 <=? status) && (status <=? 299).

Definition http_error_message (status : Z) : string :=
  ("加载项目列表失败：HTTP " ++ Str.ofZ status)%string.

(** The page as the template has it, with one error logged. *)
Definition failed (err : string) : page :=
  {| tag_options := []; grid := []; console_errors := [err] |}.

(** [loadProjects()], for the outcome of the fetch and the values the
    controls hold when the page loads. *)
Definition loadProjects (f : fetched) (c : controls) : page :=
  match f with
  | Rejected err => failed err
  | Response status b =>
      if negb (res_ok status) then failed (http_error_message status)
      else match b with
           | NotJson err => failed err
           | Json data => initApp data c
           end
  end.

(** *** Vocabulary of the further properties *)

(** The repositories asked about their pages and about their topics during
    a run, in the order of the requests. *)
Fixpoint pages_requests (t : list Effect.event) : list string :=
  match t with
  | [] => []
  | Effect.GetPages _ n :: t' => n :: pages_requests t'
  | _ :: t' => pages_requests t'
  end.

Fixpoint topics_requests (t : list Effect.event) : list string :=
  match t with
  | [] => []
  | Effect.GetAllTopics _ n :: t' => n :: topics_requests t'
  | _ :: t' => topics_requests t'
  end.

(** The repository has a pages configuration. *)
Definition has_pages (owner : string) (r : GitHub.repository) : bool :=
  match GitHub.getPages client owner (GitHub.name r) with
  | GitHub.Ok _ => true
  | GitHub.Fail _ => false
  end.

(** The repository gets a record: no flag, and a pages configuration. *)
Definition eligible (owner : string) (r : GitHub.repository) : bool :=
  negb (flagged r) && has_pages owner r.

(** The topics the record of a repository carries. *)
Definition topics_or_empty (owner : string) (r : GitHub.repository) : list string :=
  match GitHub.getAllTopics client owner (GitHub.name r) with
  | GitHub.Ok names => names
  | GitHub.Fail _ => []
  end.

(** The time value of the record is [t]. *)
Definition has_time (t : Z) (p : project) : bool :=
  match newDate (date p) with
  | Some u => u =? t
  | None => false
  end.

(** [a] is at most as recent as [b]; both dates are parseable. *)
Definition le_date (a b : project) : Prop :=
  exists ta tb, newDate (date a) = Some ta /\ newDate (date b) = Some tb /\ ta <= tb.

(** [a] is older than [b]; both dates are parseable. *)
Definition lt_date (a b : project) : Prop :=
  exists ta tb, newDate (date a) = Some ta /\ newDate (date b) = Some tb /\ ta < tb.

(** No two records of the list, at different places, have the same time
    value. *)
Definition distinct_dates (l : list project) : Prop :=
  ForallOrdPairs (fun a b => newDate (date a) <> newDate (date b)) l.

Definition date_ascending (l : list project) : Prop :=
  forall i a b,
    nth_error l i = Some a -> nth_error l (S i) = Some b -> le_date a b.

(** Adjacent strings are different, and in the order of their UTF-16 code
    units. *)
Definition strictly_increasing (l : list string) : Prop :=
  forall i a b,
    nth_error l i = Some a -> nth_error l (S i) = Some b ->
    a <> b /\ Str.compare a b <> Gt.

(** [check] holds on the [fuel] integers from [i] on. *)
Fixpoint all_from (check : Z -> bool) (fuel : nat) (i : Z) : bool :=
  match fuel with
  | O => true
  | S fuel' => check i && all_from check fuel' (i + 1)
  end.

Definition pads_to_two (n : Z) : bool :=
  (String.length (Str.padStart2 (Str.ofZ n)) =? 2)%nat.

(** ** Properties *)

(** *** Strings *)

Lemma startsWith_spec (s q : string) :
  Str.startsWith s q = true <-> exists suf, s = (q ++ suf)%string.
Proof.
  revert s; induction q as [|a q IH]; intros s; simpl.
  - split; [intros _; exists s; reflexivity | reflexivity].
  - destruct s as [|b s].
    + split; [discriminate | intros [suf H]; discriminate].
    + rewrite andb_true_iff, Ascii.eqb_eq, IH. split.
      * intros [-> [suf ->]]. exists suf; reflexivity.
      * intros [suf H]. injection H as -> ->. split; [reflexivity | now exists suf].
Qed.

Lemma includes_spec (s q : string) :
  Str.includes s q = true <-> Str.substring_of q s.
Proof.
  unfold Str.substring_of. induction s as [|b s IH]; simpl.
  - rewrite orb_false_r, startsWith_spec. split.
    + intros [suf H]. exists "", suf. exact H.
    + intros [pre [suf H]]. destruct pre; [now exists suf | discriminate].
  - rewrite orb_true_iff, startsWith_spec, IH. split.
    + intros [[suf H] | [pre [suf H]]].
      * exists "", suf. exact H.
      * exists (String b pre), suf. simpl. now rewrite H.
    + intros [pre [suf H]]. destruct pre as [|c pre]; simpl in H.
      * left. now exists suf.
      * right. injection H as _ H. now exists pre, suf.
Qed.

Lemma toLowerCase_empty (s : string) : Str.toLowerCase s = "" <-> s = "".
Proof. destruct s; simpl; split; intros H; try reflexivity; discriminate. Qed.

Lemma truthy_false (s : string) : Str.truthy s = false <-> s = "".
Proof. destruct s; simpl; split; intros H; try reflexivity; discriminate. Qed.

Lemma substring_of_empty (q : string) : Str.substring_of q "" -> q = "".
Proof.
  intros [pre [suf H]]. destruct pre; [|discriminate].
  destruct q; [reflexivity | discriminate].
Qed.

Lemma drop_prefix_spec (t s r : string) :
  Str.drop_prefix t s = Some r <-> s = (t ++ r)%string.
Proof.
  revert s. induction t as [|a t IH]; intros s; simpl.
  - split; [intros H; now injection H | intros ->; reflexivity].
  - destruct s as [|b s]; [split; discriminate|].
    destruct (Ascii.eqb a b) eqn:E.
    + apply Ascii.eqb_eq in E. subst b. rewrite IH. split.
      * intros ->. reflexivity.
      * intros H. now injection H.
    + apply Ascii.eqb_neq in E. split; [discriminate|].
      intros H. injection H as H1 _. congruence.
Qed.

Lemma strip_first_Some (toks : list string) (s r : string) :
  Str.strip_first toks s = Some r ->
  exists t, In t toks /\ s = (t ++ r)%string.
Proof.
  induction toks as [|t toks IH]; simpl; [discriminate|].
  destruct (Str.drop_prefix t s) as [r'|] eqn:E.
  - intros H. injection H as <-. exists t. split; [now left|].
    now apply drop_prefix_spec.
  - intros H. destruct (IH H) as (t' & Hin & Hs). exists t'. split; [now right | exact Hs].
Qed.

Lemma strip_first_None (toks : list string) (s : string) :
  Str.strip_first toks s = None ->
  forall t r, In t toks -> s <> (t ++ r)%string.
Proof.
  induction toks as [|t toks IH]; simpl; intros H t' r []; subst.
  - intros E. apply drop_prefix_spec in E. rewrite E in H. discriminate H.
  - destruct (Str.drop_prefix t s); [discriminate H|]. now apply IH.
Qed.

Lemma strip_first_token (toks : list string) (t x : string) :
  In t toks -> exists r, Str.strip_first toks (t ++ x) = Some r.
Proof.
  intros Hin. destruct (Str.strip_first toks (t ++ x)) as [r|] eqn:E; [now exists r|].
  exfalso. exact (strip_first_None _ _ E t x Hin eq_refl).
Qed.

(** Two strings that begin one string: one begins the other. *)
Lemma append_split (a b c d : string) :
  (a ++ b = c ++ d)%string ->
  (exists v, a = c ++ v /\ d = v ++ b)%string \/
  (exists u, u <> "" /\ c = a ++ u /\ b = u ++ d)%string.
Proof.
  revert c. induction a as [|x a IH]; intros c H; simpl in H.
  - destruct c as [|y c].
    + left. exists "". simpl in *. split; [reflexivity | now symmetry].
    + right. exists (String y c). repeat split; [discriminate | exact H].
  - destruct c as [|y c]; simpl in H.
    + left. exists (String x a). split; [reflexivity | now symmetry].
    + injection H as -> H. destruct (IH c H) as [(v & -> & ->)|(u & Hu & -> & ->)].
      * left. now exists v.
      * right. now exists u.
Qed.


Lemma token_nonempty (t : string) : In t Str.whiteSpace -> t <> "".
Proof.
  intros Hin.
  assert (H : Str.tokens_nonempty = true) by reflexivity.
  unfold Str.tokens_nonempty in H. rewrite forallb_forall in H.
  specialize (H t Hin). apply negb_true_iff, String.eqb_neq in H. exact H.
Qed.

Lemma token_prefix_free (t1 t2 r1 r2 : string) :
  In t1 Str.whiteSpace -> In t2 Str.whiteSpace ->
  (t1 ++ r1 = t2 ++ r2)%string -> t1 = t2 /\ r1 = r2.
Proof.
  intros H1 H2 E.
  assert (H : Str.prefix_free = true) by reflexivity.
  unfold Str.prefix_free in H. rewrite forallb_forall in H.
  assert (Et : t1 = t2).
  { destruct (append_split _ _ _ _ E) as [(v & Hv & _)|(u & _ & Hu & _)].
    - pose proof (H t2 H2) as K. rewrite forallb_forall in K. specialize (K t1 H1).
      apply drop_prefix_spec in Hv. rewrite Hv in K.
      apply String.eqb_eq in K. now symmetry.
    - pose proof (H t1 H1) as K. rewrite forallb_forall in K. specialize (K t2 H2).
      apply drop_prefix_spec in Hu. rewrite Hu in K.
      now apply String.eqb_eq in K. }
  split; [exact Et|]. subst t2.
  assert (K1 : Str.drop_prefix t1 (t1 ++ r1) = Some r1) by now apply drop_prefix_spec.
  assert (K2 : Str.drop_prefix t1 (t1 ++ r1) = Some r2) by now apply drop_prefix_spec.
  congruence.
Qed.

Lemma append_length (a b : string) :
  String.length (a ++ b) = (String.length a + String.length b)%nat.
Proof. induction a; simpl; auto. Qed.

Lemma strip_first_shorter (s r : string) :
  Str.strip_first Str.whiteSpace s = Some r ->
  (String.length r < String.length s)%nat.
Proof.
  intros H. apply strip_first_Some in H. destruct H as (t & Hin & ->).
  apply token_nonempty in Hin. rewrite append_length.
  destruct t; [contradiction | simpl; lia].
Qed.

Lemma strip_all_enough (n m : nat) (s : string) :
  (String.length s <= n)%nat -> (String.length s <= m)%nat ->
  Str.strip_all n s = Str.strip_all m s.
Proof.
  revert m s. induction n as [|n IH]; intros m s Hn Hm.
  - destruct s; [|simpl in Hn; lia]. destruct m; reflexivity.
  - destruct m as [|m].
    + destruct s; [reflexivity | simpl in Hm; lia].
    + cbn [Str.strip_all].
      destruct (Str.strip_first Str.whiteSpace s) as [r|] eqn:E; [|reflexivity].
      apply strip_first_shorter in E. apply IH; lia.
Qed.

Lemma trimStart_unfold (s : string) :
  Str.trimStart s =
  match Str.strip_first Str.whiteSpace s with
  | Some r => Str.trimStart r
  | None => s
  end.
Proof.
  unfold Str.trimStart. destruct s as [|c s]; [reflexivity|].
  cbn [String.length Str.strip_all].
  destruct (Str.strip_first Str.whiteSpace (String c s)) as [r|] eqn:E; [|reflexivity].
  apply strip_first_shorter in E. simpl in E. apply strip_all_enough; lia.
Qed.

Lemma all_ws_unfold (s : string) :
  Str.all_ws s =
  match Str.strip_first Str.whiteSpace s with
  | Some r => Str.all_ws r
  | None => match s with EmptyString => true | _ => false end
  end.
Proof.
  unfold Str.all_ws. rewrite trimStart_unfold.
  destruct (Str.strip_first Str.whiteSpace s); reflexivity.
Qed.

Lemma strip_first_app (t x : string) :
  In t Str.whiteSpace -> Str.strip_first Str.whiteSpace (t ++ x) = Some x.
Proof.
  intros Hin. destruct (strip_first_token _ t x Hin) as [r E]. rewrite E.
  destruct (strip_first_Some _ _ _ E) as (t' & Hin' & E').
  destruct (token_prefix_free _ _ _ _ Hin Hin' E') as [_ ->]. reflexivity.
Qed.

Lemma append_assoc (a b c : string) : ((a ++ b) ++ c = a ++ b ++ c)%string.
Proof. induction a; simpl; congruence. Qed.

Lemma trimStart_ws_len (n : nat) (w s : string) :
  (String.length w <= n)%nat ->
  Str.all_ws w = true -> Str.trimStart (w ++ s) = Str.trimStart s.
Proof.
  revert w. induction n as [|n IH]; intros w Hn H.
  - destruct w; [reflexivity | simpl in Hn; lia].
  - rewrite all_ws_unfold in H.
    destruct (Str.strip_first Str.whiteSpace w) as [r|] eqn:E.
    + pose proof (strip_first_shorter _ _ E) as Hlen.
      destruct (strip_first_Some _ _ _ E) as (t & Hin & ->).
      rewrite append_assoc, trimStart_unfold, (strip_first_app t _ Hin).
      apply IH; [lia | exact H].
    + destruct w; [reflexivity | discriminate H].
Qed.

Lemma trimStart_ws (w s : string) :
  Str.all_ws w = true -> Str.trimStart (w ++ s) = Str.trimStart s.
Proof. apply (trimStart_ws_len (String.length w)). lia. Qed.

Lemma trimStart_all_ws (w : string) : Str.all_ws w = true -> Str.trimStart w = "".
Proof. unfold Str.all_ws. destruct (Str.trimStart w); [reflexivity | discriminate]. Qed.

Lemma later_byte_In (q u t : string) (b : ascii) :
  q <> "" -> t = (q ++ String b u)%string -> In b (Str.later_bytes t).
Proof.
  intros Hq ->. destruct q as [|a q]; [contradiction|]. simpl.
  clear Hq. induction q as [|c q IH]; simpl; [now left | now right].
Qed.

(** No white space token begins inside another, so none straddles the
    end of a string that ends before white space. *)
Lemma no_straddle (q w : string) :
  q <> "" -> Str.strip_first Str.whiteSpace q = None -> Str.all_ws w = true ->
  Str.strip_first Str.whiteSpace (q ++ w) = None.
Proof.
  intros Hq Hn Hw.
  destruct (Str.strip_first Str.whiteSpace (q ++ w)) as [r|] eqn:E; [|reflexivity].
  exfalso. destruct (strip_first_Some _ _ _ E) as (t & Hin & Et).
  destruct (append_split _ _ _ _ Et) as [(v & Hv & _)|(u & Hu & Ht & Hwu)].
  - exact (strip_first_None _ _ Hn t v Hin Hv).
  - destruct u as [|b u]; [contradiction|].
    rewrite all_ws_unfold in Hw.
    destruct (Str.strip_first Str.whiteSpace w) as [r2|] eqn:E2.
    + destruct (strip_first_Some _ _ _ E2) as (t2 & Hin2 & Et2).
      pose proof (token_nonempty t2 Hin2) as Hne.
      destruct t2 as [|a2 t2]; [contradiction|].
      rewrite Et2 in Hwu. simpl in Hwu. injection Hwu as Hab _.
      assert (H : Str.no_token_starts_inside = true) by reflexivity.
      unfold Str.no_token_starts_inside in H. rewrite forallb_forall in H.
      pose proof (H t Hin) as K. rewrite forallb_forall in K.
      specialize (K _ Hin2). simpl in K. apply negb_true_iff in K.
      assert (Hex : existsb (Ascii.eqb a2) (Str.later_bytes t) = true).
      { apply existsb_exists. exists b. split.
        - exact (later_byte_In q u t b Hq Ht).
        - subst. apply Ascii.eqb_refl. }
      congruence.
    + rewrite Hwu in Hw. discriminate Hw.
Qed.

Lemma trimStart_keep_len (n : nat) (q w : string) :
  (String.length q <= n)%nat ->
  Str.all_ws q = false -> Str.all_ws w = true ->
  Str.trimStart (q ++ w) = (Str.trimStart q ++ w)%string.
Proof.
  revert q. induction n as [|n IH]; intros q Hn Hq Hw.
  - destruct q; [discriminate Hq | simpl in Hn; lia].
  - rewrite all_ws_unfold in Hq. rewrite (trimStart_unfold q).
    destruct (Str.strip_first Str.whiteSpace q) as [r|] eqn:E.
    + pose proof (strip_first_shorter _ _ E) as Hlen.
      destruct (strip_first_Some _ _ _ E) as (t & Hin & ->).
      rewrite append_assoc, trimStart_unfold, (strip_first_app t _ Hin).
      apply IH; [lia | exact Hq | exact Hw].
    + rewrite trimStart_unfold, no_straddle; auto.
      destruct q; [discriminate Hq | discriminate].
Qed.

Lemma trimStart_keep (q w : string) :
  Str.all_ws q = false -> Str.all_ws w = true ->
  Str.trimStart (q ++ w) = (Str.trimStart q ++ w)%string.
Proof. apply (trimStart_keep_len (String.length q)). lia. Qed.

Lemma all_ws_app (x w : string) :
  Str.all_ws w = true -> Str.all_ws (x ++ w) = Str.all_ws x.
Proof.
  intros Hw. destruct (Str.all_ws x) eqn:Hx.
  - unfold Str.all_ws. now rewrite (trimStart_ws x w Hx), (trimStart_all_ws w Hw).
  - unfold Str.all_ws. rewrite (trimStart_keep x w Hx Hw).
    unfold Str.all_ws in Hx. destruct (Str.trimStart x); [discriminate Hx | reflexivity].
Qed.

Lemma trimEnd_all_ws (w : string) : Str.all_ws w = true -> Str.trimEnd w = "".
Proof. intros H. destruct w; simpl; [reflexivity | now rewrite H]. Qed.

Lemma trimEnd_ws (s w : string) :
  Str.all_ws w = true -> Str.trimEnd (s ++ w) = Str.trimEnd s.
Proof.
  intros Hw. induction s as [|c s IH]; simpl.
  - now apply trimEnd_all_ws.
  - change (String c (s ++ w)) with (String c s ++ w)%string.
    rewrite (all_ws_app _ w Hw), IH. reflexivity.
Qed.

Lemma trim_ws (w1 q w2 : string) :
  Str.all_ws w1 = true -> Str.all_ws w2 = true ->
  Str.trim (w1 ++ q ++ w2) = Str.trim q.
Proof.
  intros H1 H2. unfold Str.trim.
  rewrite trimStart_ws by exact H1.
  destruct (Str.all_ws q) eqn:Hq.
  - rewrite (trimStart_ws q w2 Hq).
    now rewrite (trimStart_all_ws _ H2), (trimStart_all_ws _ Hq).
  - rewrite (trimStart_keep q w2 Hq H2). now apply trimEnd_ws.
Qed.

Lemma trim_all_ws (w : string) : Str.all_ws w = true -> Str.trim w = "".
Proof. intros H. unfold Str.trim. now rewrite trimStart_all_ws. Qed.

(** *** Sorting *)

Section SortFacts.
Context {A : Type} (comparefn : A -> A -> option Z).

Lemma insert_perm (x : A) (l : list A) :
  Permutation (JSArray.insert comparefn x l) (x :: l).
Proof.
  induction l as [|y l IH]; simpl; [reflexivity|].
  destruct (JSArray.SortCompare comparefn x y <=? 0); [reflexivity|].
  rewrite IH. apply perm_swap.
Qed.

Lemma sort_perm (l : list A) : Permutation (JSArray.sort comparefn l) l.
Proof.
  induction l as [|x l IH]; simpl; [constructor|].
  rewrite insert_perm. now constructor.
Qed.

Lemma sort_In (l : list A) (x : A) : In x (JSArray.sort comparefn l) <-> In x l.
Proof.
  split; apply Permutation_in; [|symmetry]; apply sort_perm.
Qed.

Lemma sort_length (l : list A) : List.length (JSArray.sort comparefn l) = List.length l.
Proof. apply Permutation_length, sort_perm. Qed.

(** When every two elements tie, the sort returns its input. *)
Lemma sort_all_ties (l : list A) :
  (forall a b, In a l -> In b l -> JSArray.SortCompare comparefn a b = 0) ->
  JSArray.sort comparefn l = l.
Proof.
  induction l as [|x l IH]; intros H; simpl; [reflexivity|].
  rewrite IH by (intros; apply H; now right).
  destruct l as [|y l]; simpl; [reflexivity|].
  rewrite (H x y) by (simpl; auto). reflexivity.
Qed.

End SortFacts.

Lemma insert_desc_sorted (x : project) (l : list project) :
  ~ unparseable x -> Forall (fun p => ~ unparseable p) l ->
  Sorted ge_date l -> Sorted ge_date (JSArray.insert by_date_desc x l).
Proof.
  intros Hx Hl Hs. induction l as [|y l IH]; simpl.
  - repeat constructor.
  - inversion Hl as [|? ? Hy Hl']; subst. inversion Hs as [|? ? Hs' Hd]; subst.
    unfold unparseable in Hx, Hy.
    destruct (newDate (date x)) as [tx|] eqn:Ex; [|contradiction].
    destruct (newDate (date y)) as [ty|] eqn:Ey; [|contradiction].
    assert (Hc : JSArray.SortCompare by_date_desc x y = ty - tx).
    { unfold JSArray.SortCompare, by_date_desc. now rewrite Ex, Ey. }
    rewrite Hc. destruct (ty - tx <=? 0) eqn:Hle.
    + apply Z.leb_le in Hle. constructor; [exact Hs|].
      constructor. exists tx, ty. repeat split; auto; lia.
    + apply Z.leb_gt in Hle. constructor; [now apply IH|].
      destruct l as [|z l]; simpl.
      * constructor. exists ty, tx. repeat split; auto; lia.
      * destruct (JSArray.SortCompare by_date_desc x z <=? 0).
        -- constructor. exists ty, tx. repeat split; auto; lia.
        -- inversion Hd; subst. now constructor.
Qed.

Lemma sort_desc_sorted (l : list project) :
  Forall (fun p => ~ unparseable p) l ->
  Sorted ge_date (JSArray.sort by_date_desc l).
Proof.
  induction l as [|x l IH]; intros H; simpl; [constructor|].
  inversion H; subst. apply insert_desc_sorted; auto.
  apply Forall_forall. intros p Hp. apply sort_In in Hp.
  rewrite Forall_forall in H3. now apply H3.
Qed.

Lemma Sorted_date_descending (l : list project) :
  Sorted ge_date l -> date_descending l.
Proof.
  intros Hs. induction Hs as [|a l Hs IH Hd]; intros i x y Hx Hy.
  - destruct i; discriminate.
  - destruct i as [|i]; simpl in Hx, Hy.
    + injection Hx as <-. destruct l as [|b l]; [discriminate|].
      injection Hy as <-. now inversion Hd.
    + now apply (IH i).
Qed.

(** *** The loop of the generator *)

Lemma loop_body_spec (owner : string) (r : GitHub.repository) (ps : list project) :
  loop_body owner r ps =
  (Effect.Normal (ps ++ turn_records owner r), turn_events owner r).
Proof.
  unfold turn_records, turn_events, loop_body, fetch_pages, fetch_topics.
  destruct (GitHub.fork r || GitHub.archived r); simpl.
  - now rewrite app_nil_r.
  - destruct (GitHub.getPages client owner (GitHub.name r)) as [cfg|err]; simpl.
    + destruct (GitHub.getAllTopics client owner (GitHub.name r)) as [ns|err];
        simpl; reflexivity.
    + destruct (is_404 err); simpl; now rewrite app_nil_r.
Qed.

Lemma for_of_spec (owner : string) (repos : list GitHub.repository) (ps : list project) :
  for_of owner repos ps =
  (Effect.Normal (ps ++ flat_map (turn_records owner) repos),
   flat_map (turn_events owner) repos).
Proof.
  revert ps; induction repos as [|r repos IH]; intros ps; simpl.
  - now rewrite app_nil_r.
  - rewrite loop_body_spec. simpl. rewrite IH. now rewrite <- app_assoc.
Qed.

Lemma turn_records_flagged (owner : string) (r : GitHub.repository) :
  flagged r = true -> turn_records owner r = [] /\ turn_events owner r = [].
Proof.
  unfold flagged, turn_records, turn_events, loop_body. intros ->. now split.
Qed.

(** A turn adds at most the record of its own repository. *)
Lemma turn_records_shape (owner : string) (r : GitHub.repository) (p : project) :
  In p (turn_records owner r) ->
  flagged r = false /\
  exists cfg ts, GitHub.getPages client owner (GitHub.name r) = GitHub.Ok cfg /\
                 p = make_project r (GitHub.html_url cfg) ts.
Proof.
  unfold flagged, turn_records, loop_body, fetch_pages, fetch_topics.
  destruct (GitHub.fork r || GitHub.archived r); simpl; [intros []|].
  destruct (GitHub.getPages client owner (GitHub.name r)) as [cfg|err]; simpl.
  - destruct (GitHub.getAllTopics client owner (GitHub.name r)) as [ns|err]; simpl;
      (intros [<-|[]]; split; [reflexivity|]; eexists _, _; split; reflexivity).
  - destruct (is_404 err); simpl; intros [].
Qed.

(** The run once both credentials are present and the listing answered. *)
Lemma main_listed (owner token : string) (repos : list GitHub.repository) :
  GITHUB_USER env = Some owner -> Str.truthy owner = true ->
  GITHUB_TOKEN env = Some token -> Str.truthy token = true ->
  GitHub.listForUser client owner = GitHub.Ok repos ->
  let projects := JSArray.sort by_date_desc (flat_map (turn_records owner) repos) in
  let outputPath := path_resolve "projects.json" in
  let before :=
    Effect.ListForUser owner 100 :: flat_map (turn_events owner) repos ++
    [Effect.WriteFile outputPath projects] in
  main =
  match fs_writeFile outputPath projects with
  | GitHub.Ok _ =>
      (Effect.Normal tt,
       before ++ [Effect.ConsoleLog (done_message (List.length projects) outputPath)])
  | GitHub.Fail err => (Effect.Throw err, before)
  end.
Proof.
  intros Ho Hto Ht Htt Hl. unfold main. rewrite Ho, Ht. simpl.
  rewrite Hto, Htt, Hl. simpl. rewrite for_of_spec. simpl.
  destruct (fs_writeFile _ _); simpl;
    rewrite ?app_nil_r, <- ?app_assoc; reflexivity.
Qed.

Lemma written_app (t1 t2 : list Effect.event) :
  written (t1 ++ t2) = written t1 ++ written t2.
Proof.
  induction t1 as [|e t1 IH]; simpl; [reflexivity|].
  destruct e; simpl; now rewrite ?IH.
Qed.

Lemma written_turns (owner : string) (repos : list GitHub.repository) :
  written (flat_map (turn_events owner) repos) = [].
Proof.
  induction repos as [|r repos IH]; simpl; [reflexivity|].
  rewrite written_app, IH, app_nil_r.
  unfold turn_events, loop_body, fetch_pages, fetch_topics.
  destruct (GitHub.fork r || GitHub.archived r); simpl; [reflexivity|].
  destruct (GitHub.getPages client owner (GitHub.name r)) as [cfg|err]; simpl.
  - destruct (GitHub.getAllTopics client owner (GitHub.name r)); reflexivity.
  - destruct (is_404 err); reflexivity.
Qed.

(** Whatever the run writes is the sorted list of the records of the turns
    over the listed repositories. *)
Lemma written_manifest (json : list project) :
  In json (written (snd script)) ->
  exists owner repos,
    GITHUB_USER env = Some owner /\
    GitHub.listForUser client owner = GitHub.Ok repos /\
    json = JSArray.sort by_date_desc (flat_map (turn_records owner) repos).
Proof.
  unfold script, main.
  destruct (GITHUB_USER env) as [owner|]; [|simpl; intros []].
  destruct (Str.truthy owner) eqn:Hto; simpl; [|intros []].
  destruct (Str.truthy_opt (GITHUB_TOKEN env)); simpl; [|intros []].
  destruct (GitHub.listForUser client owner) as [repos|err] eqn:Hl; simpl;
    [|intros []].
  rewrite for_of_spec. simpl.
  set (ps := JSArray.sort by_date_desc (flat_map (turn_records owner) repos)).
  intros H. exists owner, repos.
  split; [reflexivity|]. split; [exact Hl|].
  unfold Effect.await, Effect.emit, Effect.bind in H.
  destruct (fs_writeFile (path_resolve "projects.json") ps); simpl in H;
    rewrite ?written_app, written_turns in H; simpl in H;
    destruct H as [H|H]; try contradiction; now symmetry.
Qed.


(** *** The generator *)

(** C2.  The manifest the generator writes is in descending order of
    date: every record is at least as recent as the one after it.  The
    dates are those the API gives, which parse as timestamps. *)
Theorem C2_manifest_sorted_descending :
  (forall owner repos r,
      GitHub.listForUser client owner = GitHub.Ok repos -> In r repos ->
      Date_parse (GitHub.updated_at r) <> None) ->
  forall json, In json (written (snd script)) -> date_descending json.
Proof.
  intros Hdates json Hw.
  destruct (written_manifest json Hw) as (owner & repos & _ & Hl & ->).
  apply Sorted_date_descending, sort_desc_sorted.
  apply Forall_forall. intros p Hp.
  apply in_flat_map in Hp. destruct Hp as (r & Hr & Hp).
  apply turn_records_shape in Hp. destruct Hp as (_ & cfg & ts & _ & ->).
  unfold unparseable. simpl. now apply (Hdates owner repos).
Qed.


(** C4.  A repository flagged as a fork or as archived adds no record and
    causes no request, whatever the API would answer about its pages: the
    loop over a listing that contains it runs as the loop over the listing
    without it; and every record of a written manifest was made from a
    repository that carries neither flag. *)
Theorem C4_fork_or_archived_emits_nothing
    (owner : string) (r : GitHub.repository) (ps : list project)
    (before after : list GitHub.repository) :
  GitHub.fork r = true \/ GitHub.archived r = true ->
  loop_body owner r ps = (Effect.Normal ps, []) /\
  for_of owner (before ++ r :: after) ps = for_of owner (before ++ after) ps /\
  forall json p, In json (written (snd script)) -> In p json ->
    exists r', GitHub.fork r' = false /\ GitHub.archived r' = false /\
               repo p = Some (GitHub.name r').
Proof.
  intros Hf.
  assert (Hfl : flagged r = true).
  { unfold flagged. destruct Hf as [-> | ->]; [reflexivity | apply orb_true_r]. }
  destruct (turn_records_flagged owner r Hfl) as [Hrec Hev].
  split; [|split].
  - rewrite loop_body_spec, Hrec, Hev. now rewrite app_nil_r.
  - rewrite !for_of_spec, !flat_map_app. simpl. now rewrite Hrec, Hev.
  - intros json p Hw Hp.
    destruct (written_manifest json Hw) as (o & repos & _ & _ & ->).
    apply sort_In, in_flat_map in Hp. destruct Hp as (r' & _ & Hp).
    apply turn_records_shape in Hp. destruct Hp as (Hnf & cfg & ts & _ & ->).
    exists r'. unfold flagged in Hnf. apply orb_false_iff in Hnf.
    destruct Hnf. now repeat split.
Qed.


(** C6.  When the account identifier or the access token is absent from
    the environment, the script logs an error message that names the
    missing variable and exits with status 1; that message is the only
    event of the run, so no request was made. *)
Theorem C6_missing_credentials_fatal :
  GITHUB_USER env = None \/ GITHUB_TOKEN env = None ->
  exists msg,
    (msg = no_user_message \/ msg = no_token_message) /\
    script = (1, [Effect.ConsoleError (Effect.Text msg)]) /\
    fst script <> 0 /\
    existsb Effect.is_network (snd script) = false.
Proof.
  intros H. unfold script, main.
  destruct (GITHUB_USER env) as [owner|] eqn:Ho.
  - destruct H as [H|H]; [discriminate|]. rewrite H.
    destruct (Str.truthy owner); simpl.
    + exists no_token_message. repeat split; auto; discriminate.
    + exists no_user_message. repeat split; auto; discriminate.
  - simpl. exists no_user_message. repeat split; auto; discriminate.
Qed.

(** C9.  Every record of a written manifest has the name of its repository
    both as [name] and as [repo], and the empty string as [screenshot]. *)
Theorem C9_name_is_repo_and_screenshot_empty (json : list project) (p : project) :
  In json (written (snd script)) -> In p json ->
  name p = repo p /\ screenshot p = Some "" /\
  exists owner repos r,
    GitHub.listForUser client owner = GitHub.Ok repos /\ In r repos /\
    name p = Some (GitHub.name r).
Proof.
  intros Hw Hp.
  destruct (written_manifest json Hw) as (owner & repos & _ & Hl & ->).
  apply sort_In, in_flat_map in Hp. destruct Hp as (r & Hr & Hp).
  apply turn_records_shape in Hp. destruct Hp as (_ & cfg & ts & _ & ->).
  simpl. repeat split. now exists owner, repos, r.
Qed.

(** *** The renderer *)

Lemma field_matches_spec (f : option string) (text : string) :
  Str.toLowerCase text <> "" ->
  field_matches f (Str.toLowerCase text) = true <-> ci_substring text f.
Proof.
  intros Hq. unfold field_matches, ci_substring. destruct f as [v|].
  - rewrite andb_true_iff, includes_spec. split.
    + intros [_ H]. now exists v.
    + intros (v' & Hv & H). injection Hv as <-. split; [|exact H].
      destruct v; [|reflexivity]. simpl in H.
      apply substring_of_empty in H. contradiction.
  - split; [discriminate | intros (v & Hv & _); discriminate].
Qed.

Lemma has_topic_spec (ts : option (list string)) (tag : string) :
  has_topic ts tag = true <-> exists l, ts = Some l /\ In tag l.
Proof.
  unfold has_topic. destruct ts as [l|].
  - rewrite existsb_exists. split.
    + intros (x & Hx & He). apply String.eqb_eq in He. subst x. now exists l.
    + intros (l' & Hl & Hin). injection Hl as <-. exists tag.
      split; [exact Hin | apply String.eqb_refl].
  - split; [discriminate | intros (l & Hl & _); discriminate].
Qed.

Lemma keep_spec (text tag : string) (p : project) :
  keep (Str.toLowerCase text) tag p = true <-> shown_when text tag p.
Proof.
  clear Date_parse LocalTZA env client fs_writeFile path_resolve.
  unfold keep, shown_when.
  rewrite andb_true_iff, !orb_true_iff, !negb_true_iff, !truthy_false.
  rewrite has_topic_spec, toLowerCase_empty.
  destruct (string_dec text "") as [->|Hne].
  - simpl. tauto.
  - assert (Hq : Str.toLowerCase text <> "") by now rewrite toLowerCase_empty.
    rewrite !(field_matches_spec _ _ Hq). tauto.
Qed.


(** C10.  White space around the search text changes nothing: the records
    shown and the cards rendered for [w1 ++ q ++ w2] are those for [q], and
    a search text of white space only gives those of the empty text. *)
Theorem C10_search_text_is_trimmed
    (projects : list project) (w1 q w2 tag sortVal : string) :
  Str.all_ws w1 = true -> Str.all_ws w2 = true ->
  let ctl text := {| searchInput := text; tagFilter := tag; sortOrder := sortVal |} in
  filtered projects (ctl (w1 ++ q ++ w2)%string) = filtered projects (ctl q) /\
  render projects (ctl (w1 ++ q ++ w2)%string) = render projects (ctl q) /\
  filtered projects (ctl w1) = filtered projects (ctl "") /\
  render projects (ctl w1) = render projects (ctl "").
Proof.
  intros H1 H2 ctl.
  assert (Ha : query_of (ctl (w1 ++ q ++ w2)%string) = query_of (ctl q)).
  { unfold query_of. simpl. now rewrite trim_ws. }
  assert (Hb : query_of (ctl w1) = query_of (ctl "")).
  { unfold query_of. simpl. now rewrite trim_all_ws. }
  unfold render, filtered. rewrite Ha, Hb. simpl. repeat split.
Qed.

Lemma unparseable_ties (x y : project) (sortVal : string) :
  unparseable x ->
  by_date_desc x y = None /\ by_date_desc y x = None /\
  by_date sortVal x y = None /\ by_date sortVal y x = None.
Proof.
  unfold unparseable, by_date_desc, by_date, JSArray.date_sub. intros ->.
  destruct (newDate (date y)), (String.eqb sortVal "asc"); repeat split.
Qed.

(** C7, amended.  For a record whose date is not parseable the comparators
    of the generator and of the renderer (either direction) give NaN
    against every record, in both argument orders, which the sort reads as
    a tie.  In a list whose other records are unparseable too or all carry
    one and the same timestamp every pair ties, and each of the three
    sorts returns the list in its input order: the record is at the place
    the input had it, last only if it was last there.  For other lists
    nothing is stated about its place. *)
Theorem C7_unparseable_date_ties
    (l : list project) (x : project) (t : Z) :
  In x l -> unparseable x ->
  (forall p, In p l -> unparseable p \/ newDate (date p) = Some t) ->
  (forall y sortVal,
      by_date_desc x y = None /\ by_date_desc y x = None /\
      by_date sortVal x y = None /\ by_date sortVal y x = None) /\
  JSArray.sort by_date_desc l = l /\
  (forall sortVal, JSArray.sort (by_date sortVal) l = l) /\
  (forall i, nth_error l i = Some x ->
     nth_error (JSArray.sort by_date_desc l) i = Some x /\
     forall sortVal, nth_error (JSArray.sort (by_date sortVal) l) i = Some x).
Proof.
  intros _ Hx Hl.
  assert (Hties : JSArray.sort by_date_desc l = l /\
                  forall sortVal, JSArray.sort (by_date sortVal) l = l).
  { split; [|intros sortVal]; apply sort_all_ties; intros a b Ha Hb;
      unfold JSArray.SortCompare, by_date_desc, by_date, JSArray.date_sub;
      destruct (Hl a Ha) as [Ua | ->], (Hl b Hb) as [Ub | ->];
      try (unfold unparseable in Ua; rewrite Ua);
      try (unfold unparseable in Ub; rewrite Ub);
      try destruct (String.eqb sortVal "asc");
      try destruct (newDate (date a)); try destruct (newDate (date b));
      try reflexivity; try apply Z.sub_diag. }
  destruct Hties as [Hg Hr].
  split; [intros y sortVal; now apply unparseable_ties|].
  split; [exact Hg|]. split; [exact Hr|].
  intros i Hi. rewrite Hg. split; [exact Hi|].
  intros sortVal. now rewrite Hr.
Qed.

(** The label of a card whose record has a date that is present and not
    parseable: the prefix alone. *)
Lemma update_date_unparseable (p : project) (d : string) :
  date p = Some d -> Str.truthy d = true -> Date_parse d = None ->
  update_date (make_card p) = date_prefix /\ formatDate d = "".
Proof.
  intros Hd Ht Hp. unfold make_card, formatDate. simpl. rewrite Hd, Ht, Hp.
  split; [|reflexivity]. unfold date_prefix. reflexivity.
Qed.

(** *** Further properties of the generator *)

Lemma turn_records_closed (owner : string) (r : GitHub.repository) :
  turn_records owner r =
  if flagged r then []
  else match GitHub.getPages client owner (GitHub.name r) with
       | GitHub.Ok cfg =>
           [make_project r (GitHub.html_url cfg) (topics_or_empty owner r)]
       | GitHub.Fail _ => []
       end.
Proof.
  unfold turn_records, loop_body, fetch_pages, fetch_topics, flagged, topics_or_empty.
  destruct (GitHub.fork r || GitHub.archived r); simpl; [reflexivity|].
  destruct (GitHub.getPages client owner (GitHub.name r)) as [cfg|err]; simpl.
  - destruct (GitHub.getAllTopics client owner (GitHub.name r)); reflexivity.
  - destruct (is_404 err); reflexivity.
Qed.

Lemma turn_events_closed (owner : string) (r : GitHub.repository) :
  pages_requests (turn_events owner r) =
    (if flagged r then [] else [GitHub.name r]) /\
  topics_requests (turn_events owner r) =
    (if eligible owner r then [GitHub.name r] else []) /\
  (forall msg, ~ In (Effect.ConsoleLog msg) (turn_events owner r)).
Proof.
  unfold turn_events, loop_body, fetch_pages, fetch_topics, eligible, has_pages, flagged.
  destruct (GitHub.fork r || GitHub.archived r); simpl.
  - repeat split. intros msg [].
  - destruct (GitHub.getPages client owner (GitHub.name r)) as [cfg|err]; simpl.
    + destruct (GitHub.getAllTopics client owner (GitHub.name r)); simpl;
        repeat split; intros msg H; repeat (destruct H as [H|H]; try discriminate H);
        exact H.
    + destruct (is_404 err); simpl; repeat split; intros msg H;
        repeat (destruct H as [H|H]; try discriminate H); exact H.
Qed.

Lemma pages_requests_app (t1 t2 : list Effect.event) :
  pages_requests (t1 ++ t2) = pages_requests t1 ++ pages_requests t2.
Proof.
  induction t1 as [|e t1 IH]; simpl; [reflexivity|].
  destruct e; simpl; now rewrite ?IH.
Qed.

Lemma topics_requests_app (t1 t2 : list Effect.event) :
  topics_requests (t1 ++ t2) = topics_requests t1 ++ topics_requests t2.
Proof.
  induction t1 as [|e t1 IH]; simpl; [reflexivity|].
  destruct e; simpl; now rewrite ?IH.
Qed.

Lemma pages_requests_turns (owner : string) (repos : list GitHub.repository) :
  pages_requests (flat_map (turn_events owner) repos) =
  map GitHub.name (filter (fun r => negb (flagged r)) repos).
Proof.
  induction repos as [|r repos IH]; simpl; [reflexivity|].
  rewrite pages_requests_app, IH.
  destruct (turn_events_closed owner r) as [-> _].
  destruct (flagged r); reflexivity.
Qed.

Lemma topics_requests_turns (owner : string) (repos : list GitHub.repository) :
  topics_requests (flat_map (turn_events owner) repos) =
  map GitHub.name (filter (eligible owner) repos).
Proof.
  induction repos as [|r repos IH]; simpl; [reflexivity|].
  rewrite topics_requests_app, IH.
  destruct (turn_events_closed owner r) as [_ [-> _]].
  destruct (eligible owner r); reflexivity.
Qed.

Lemma turn_records_length (owner : string) (repos : list GitHub.repository) :
  List.length (flat_map (turn_records owner) repos) =
  List.length (filter (eligible owner) repos).
Proof.
  induction repos as [|r repos IH]; simpl; [reflexivity|].
  rewrite length_app, IH, turn_records_closed. unfold eligible, has_pages.
  destruct (flagged r); simpl; [reflexivity|].
  destruct (GitHub.getPages client owner (GitHub.name r)); reflexivity.
Qed.

(** X1.  When the listing of the repositories is rejected, the script logs
    the error and exits with status 1: no repository is asked about and
    nothing is written. *)
Theorem X1_listing_failure_is_fatal (owner : string) (err : GitHub.error) :
  GITHUB_USER env = Some owner -> Str.truthy owner = true ->
  Str.truthy_opt (GITHUB_TOKEN env) = true ->
  GitHub.listForUser client owner = GitHub.Fail err ->
  script = (1, [Effect.ListForUser owner 100;
                Effect.ConsoleError (Effect.ErrorObject err)]) /\
  written (snd script) = [].
Proof.
  intros Ho Hto Ht Hl. unfold script, main.
  rewrite Ho, Hto, Ht, Hl. simpl. split; reflexivity.
Qed.

(** X2.  When the file cannot be written, the script logs the error after
    the attempt and exits with status 1; the message that reports the
    generated records is not logged. *)
Theorem X2_write_failure_is_fatal
    (owner token : string) (repos : list GitHub.repository) (err : GitHub.error) :
  GITHUB_USER env = Some owner -> Str.truthy owner = true ->
  GITHUB_TOKEN env = Some token -> Str.truthy token = true ->
  GitHub.listForUser client owner = GitHub.Ok repos ->
  (forall path json, fs_writeFile path json = GitHub.Fail err) ->
  fst script = 1 /\
  (exists t json,
     snd script = t ++ [Effect.WriteFile (path_resolve "projects.json") json;
                        Effect.ConsoleError (Effect.ErrorObject err)]) /\
  (forall msg, ~ In (Effect.ConsoleLog msg) (snd script)).
Proof.
  intros Ho Hto Ht Htt Hl Hw. unfold script.
  rewrite (main_listed owner token repos Ho Hto Ht Htt Hl). simpl.
  rewrite Hw. simpl. split; [reflexivity|]. split.
  - eexists (_ :: _), _. simpl. rewrite <- app_assoc. simpl. reflexivity.
  - intros msg [H|H]; [discriminate H|].
    rewrite <- app_assoc in H. apply in_app_or in H. destruct H as [H|H].
    + apply in_flat_map in H. destruct H as (r & _ & H).
      now apply (proj2 (proj2 (turn_events_closed owner r)) msg).
    + simpl in H. destruct H as [H|[H|[]]]; discriminate H.
Qed.

(** X3.  A credential that is the empty string counts as missing, and the
    account identifier is checked first: the one message logged names
    [GITHUB_USER] unless that variable is set, and the script exits with
    status 1. *)
Theorem X3_empty_credential_is_missing :
  Str.truthy_opt (GITHUB_USER env) = false \/
  Str.truthy_opt (GITHUB_TOKEN env) = false ->
  script =
  (1, [Effect.ConsoleError
         (Effect.Text (if Str.truthy_opt (GITHUB_USER env)
                       then no_token_message else no_user_message))]).
Proof.
  intros H. unfold script, main.
  destruct (GITHUB_USER env) as [owner|]; simpl in *; [|reflexivity].
  destruct (Str.truthy owner); simpl; [|reflexivity].
  destruct H as [H|H]; [discriminate H|]. rewrite H. reflexivity.
Qed.

(** X4.  A run that succeeds lists the repositories first, writes the
    manifest to the resolved path of [projects.json] once, and ends by
    logging the number of records of that manifest; its status is 0. *)
Theorem X4_successful_run_reports_count
    (owner token : string) (repos : list GitHub.repository) :
  GITHUB_USER env = Some owner -> Str.truthy owner = true ->
  GITHUB_TOKEN env = Some token -> Str.truthy token = true ->
  GitHub.listForUser client owner = GitHub.Ok repos ->
  (forall path json, fs_writeFile path json = GitHub.Ok tt) ->
  fst script = 0 /\
  exists mid json,
    snd script =
      Effect.ListForUser owner 100 :: mid ++
      [Effect.WriteFile (path_resolve "projects.json") json;
       Effect.ConsoleLog (done_message (List.length json)
                                       (path_resolve "projects.json"))] /\
    written mid = [] /\
    List.length json = List.length (filter (eligible owner) repos).
Proof.
  intros Ho Hto Ht Htt Hl Hw. unfold script.
  rewrite (main_listed owner token repos Ho Hto Ht Htt Hl). simpl.
  rewrite Hw. simpl. split; [reflexivity|].
  eexists _, _. split; [|split].
  - rewrite <- app_assoc. simpl. reflexivity.
  - apply written_turns.
  - now rewrite sort_length, turn_records_length.
Qed.

(** X5.  The manifest holds one record for each listed repository that is
    neither a fork nor archived and has a pages configuration: as many
    records as there are such repositories, and for each of them the
    record with its page URL and with the topics fetched, or none when the
    topics request failed. *)
Theorem X5_manifest_is_complete (json : list project) :
  In json (written (snd script)) ->
  exists owner repos,
    GitHub.listForUser client owner = GitHub.Ok repos /\
    List.length json = List.length (filter (eligible owner) repos) /\
    forall r cfg,
      In r repos -> flagged r = false ->
      GitHub.getPages client owner (GitHub.name r) = GitHub.Ok cfg ->
      In (make_project r (GitHub.html_url cfg) (topics_or_empty owner r)) json.
Proof.
  intros Hw.
  destruct (written_manifest json Hw) as (owner & repos & _ & Hl & ->).
  exists owner, repos. split; [exact Hl|]. split.
  - now rewrite sort_length, turn_records_length.
  - intros r cfg Hr Hf Hp. apply sort_In, in_flat_map. exists r.
    split; [exact Hr|]. rewrite turn_records_closed, Hf, Hp. now left.
Qed.

(** X6.  Every record of the manifest comes from a listed repository that
    has a pages configuration: its URL is the [html_url] of that
    configuration, its date the [updated_at] of the repository, its
    description the repository's or the empty string, and its topics are
    always an array: the names fetched, or the empty array. *)
Theorem X6_record_fields (json : list project) (p : project) :
  In json (written (snd script)) -> In p json ->
  exists owner repos r cfg,
    GitHub.listForUser client owner = GitHub.Ok repos /\ In r repos /\
    GitHub.getPages client owner (GitHub.name r) = GitHub.Ok cfg /\
    url p = GitHub.html_url cfg /\
    date p = Some (GitHub.updated_at r) /\
    description p = Some (match GitHub.description r with
                          | Some d => d
                          | None => ""
                          end) /\
    topics p = Some (topics_or_empty owner r).
Proof.
  intros Hw Hp.
  destruct (written_manifest json Hw) as (owner & repos & _ & Hl & ->).
  apply sort_In, in_flat_map in Hp. destruct Hp as (r & Hr & Hp).
  rewrite turn_records_closed in Hp.
  destruct (flagged r); [destruct Hp|].
  destruct (GitHub.getPages client owner (GitHub.name r)) as [cfg|err] eqn:Hg;
    [|destruct Hp].
  destruct Hp as [<-|[]]. exists owner, repos, r, cfg.
  repeat split; auto. simpl. f_equal.
  destruct (GitHub.description r) as [[|c d]|]; reflexivity.
Qed.

(** X7.  The pages configuration is requested once for each listed
    repository that is neither a fork nor archived, in the order of the
    listing, and for no other; the topics are requested once for each of
    those that has a pages configuration, and for no other. *)
Theorem X7_requests_per_repository
    (owner token : string) (repos : list GitHub.repository) :
  GITHUB_USER env = Some owner -> Str.truthy owner = true ->
  GITHUB_TOKEN env = Some token -> Str.truthy token = true ->
  GitHub.listForUser client owner = GitHub.Ok repos ->
  pages_requests (snd script) =
    map GitHub.name (filter (fun r => negb (flagged r)) repos) /\
  topics_requests (snd script) =
    map GitHub.name (filter (eligible owner) repos).
Proof.
  intros Ho Hto Ht Htt Hl. unfold script.
  rewrite (main_listed owner token repos Ho Hto Ht Htt Hl). simpl.
  destruct (fs_writeFile _ _); simpl;
    rewrite ?pages_requests_app, ?topics_requests_app,
            pages_requests_turns, topics_requests_turns;
    simpl; rewrite ?app_nil_r; split; reflexivity.
Qed.

(** *** Further properties of the sorts *)

Section SortOrder.
Context {A : Type} (comparefn : A -> A -> option Z).

(** Stability: the elements selected by [P], which tie with one another,
    keep their order. *)
Lemma insert_filter_tie (P : A -> bool) (x : A) (l : list A) :
  P x = true ->
  (forall y, In y l -> P y = true -> JSArray.SortCompare comparefn x y <= 0) ->
  filter P (JSArray.insert comparefn x l) = x :: filter P l.
Proof.
  intros Hx H. induction l as [|y l IH]; simpl; [now rewrite Hx|].
  destruct (JSArray.SortCompare comparefn x y <=? 0) eqn:Hc; simpl.
  - now rewrite Hx.
  - destruct (P y) eqn:Hy.
    + apply Z.leb_gt in Hc. specialize (H y (or_introl eq_refl) Hy). lia.
    + apply IH. intros z Hz. apply H. now right.
Qed.

Lemma insert_filter_other (P : A -> bool) (x : A) (l : list A) :
  P x = false ->
  filter P (JSArray.insert comparefn x l) = filter P l.
Proof.
  intros Hx. induction l as [|y l IH]; simpl; [now rewrite Hx|].
  destruct (JSArray.SortCompare comparefn x y <=? 0); simpl.
  - now rewrite Hx.
  - now rewrite IH.
Qed.

Lemma sort_stable (P : A -> bool) (l : list A) :
  (forall x y, P x = true -> P y = true -> JSArray.SortCompare comparefn x y <= 0) ->
  filter P (JSArray.sort comparefn l) = filter P l.
Proof.
  intros H. induction l as [|x l IH]; simpl; [reflexivity|].
  destruct (P x) eqn:Hx.
  - rewrite insert_filter_tie; [now rewrite IH | exact Hx |].
    intros y _ Hy. now apply H.
  - now rewrite insert_filter_other.
Qed.

(** Order: when the comparator decides [R] on the elements at hand, the
    result is sorted by [R]. *)
Lemma insert_sorted (R : A -> A -> Prop) (x : A) (l : list A) :
  (forall y, In y l ->
     (JSArray.SortCompare comparefn x y <= 0 -> R x y) /\
     (0 < JSArray.SortCompare comparefn x y -> R y x)) ->
  Sorted R l -> Sorted R (JSArray.insert comparefn x l).
Proof.
  intros H Hs. induction l as [|y l IH]; simpl.
  - repeat constructor.
  - inversion Hs as [|? ? Hs' Hd]; subst.
    destruct (H y (or_introl eq_refl)) as [Hle Hgt].
    destruct (JSArray.SortCompare comparefn x y <=? 0) eqn:Hc.
    + apply Z.leb_le in Hc. constructor; [exact Hs|]. constructor. auto.
    + apply Z.leb_gt in Hc. constructor.
      * apply IH; [|exact Hs']. intros z Hz. apply H. now right.
      * destruct l as [|z l]; simpl; [constructor; auto|].
        destruct (JSArray.SortCompare comparefn x z <=? 0).
        -- constructor; auto.
        -- inversion Hd; subst. now constructor.
Qed.

Lemma sort_sorted (R : A -> A -> Prop) (l : list A) :
  (forall x y, In x l -> In y l ->
     (JSArray.SortCompare comparefn x y <= 0 -> R x y) /\
     (0 < JSArray.SortCompare comparefn x y -> R y x)) ->
  Sorted R (JSArray.sort comparefn l).
Proof.
  induction l as [|x l IH]; intros H; simpl; [constructor|].
  apply insert_sorted.
  - intros y Hy. apply H; [now left | right; now apply sort_In in Hy].
  - apply IH. intros a b Ha Hb. apply H; now right.
Qed.

(** A list that is in order already is returned as it is. *)
Lemma sort_of_sorted (l : list A) :
  Sorted (fun x y => JSArray.SortCompare comparefn x y <= 0) l ->
  JSArray.sort comparefn l = l.
Proof.
  induction 1 as [|x l Hs IH Hd]; simpl; [reflexivity|].
  rewrite IH. destruct Hd as [|y l Hxy]; simpl; [reflexivity|].
  apply Z.leb_le in Hxy. now rewrite Hxy.
Qed.

End SortOrder.

Lemma Sorted_adjacent {A : Type} (R : A -> A -> Prop) (l : list A) :
  Sorted R l ->
  forall i a b, nth_error l i = Some a -> nth_error l (S i) = Some b -> R a b.
Proof.
  intros Hs. induction Hs as [|a l Hs IH Hd]; intros i x y Hx Hy.
  - destruct i; discriminate.
  - destruct i as [|i]; simpl in Hx, Hy.
    + injection Hx as <-. destruct l as [|b l]; [discriminate|].
      injection Hy as <-. now inversion Hd.
    + now apply (IH i).
Qed.

Lemma adjacent_Sorted {A : Type} (R : A -> A -> Prop) (l : list A) :
  (forall i a b, nth_error l i = Some a -> nth_error l (S i) = Some b -> R a b) ->
  Sorted R l.
Proof.
  induction l as [|x l IH]; intros H; constructor.
  - apply IH. intros i a b Ha Hb. now apply (H (S i)).
  - destruct l as [|y l]; constructor. now apply (H 0%nat).
Qed.

Lemma has_time_ties (t : Z) (sortVal : string) (x y : project) :
  has_time t x = true -> has_time t y = true ->
  JSArray.SortCompare by_date_desc x y <= 0 /\
  JSArray.SortCompare (by_date sortVal) x y <= 0.
Proof.
  unfold has_time, JSArray.SortCompare, by_date_desc, by_date.
  destruct (newDate (date x)) as [tx|]; [|discriminate].
  destruct (newDate (date y)) as [ty|]; [|discriminate].
  intros Hx Hy. apply Z.eqb_eq in Hx, Hy. subst.
  destruct (String.eqb sortVal "asc"); simpl; lia.
Qed.

Lemma filter_flat_map {A B : Type} (P : B -> bool) (f : A -> list B) (l : list A) :
  filter P (flat_map f l) = flat_map (fun a => filter P (f a)) l.
Proof.
  induction l as [|a l IH]; simpl; [reflexivity|].
  now rewrite filter_app, IH.
Qed.

(** X8.  When the [updated_at] values parse, the generator's sort keeps
    ties in the order of the listing: the records of the manifest that
    carry one and the same timestamp are those of the repositories with
    that timestamp, in the order in which the listing has them. *)
Theorem X8_generator_ties_keep_listing_order (json : list project) (t : Z) :
  (forall owner repos r,
      GitHub.listForUser client owner = GitHub.Ok repos -> In r repos ->
      Date_parse (GitHub.updated_at r) <> None) ->
  In json (written (snd script)) ->
  exists owner repos,
    GitHub.listForUser client owner = GitHub.Ok repos /\
    map repo (filter (has_time t) json) =
    map (fun r => Some (GitHub.name r))
        (filter (fun r => eligible owner r &&
                          match Date_parse (GitHub.updated_at r) with
                          | Some u => u =? t
                          | None => false
                          end) repos).
Proof.
  intros _ Hw.
  destruct (written_manifest json Hw) as (owner & repos & _ & Hl & ->).
  exists owner, repos. split; [exact Hl|].
  rewrite sort_stable by (intros x y Hx Hy; apply (has_time_ties t "" x y Hx Hy)).
  rewrite filter_flat_map. clear Hl Hw.
  induction repos as [|r repos IH]; simpl; [reflexivity|].
  rewrite map_app, IH, turn_records_closed. unfold eligible, has_pages.
  destruct (flagged r); simpl; [reflexivity|].
  destruct (GitHub.getPages client owner (GitHub.name r)); simpl; [|reflexivity].
  unfold has_time. simpl.
  destruct (Date_parse (GitHub.updated_at r)) as [u|]; [|reflexivity].
  destruct (u =? t); reflexivity.
Qed.

(** X9.  A render neither drops nor repeats a record: the records shown
    are a rearrangement of the records that pass the filter, and there is
    one card for each. *)
Theorem X9_render_rearranges_the_matches (projects : list project) (c : controls) :
  Permutation (filtered projects c)
              (filter (keep (query_of c) (tagFilter c)) projects) /\
  List.length (render projects c) =
    List.length (filter (keep (query_of c) (tagFilter c)) projects) /\
  (List.length (render projects c) <= List.length projects)%nat.
Proof.
  unfold render, filtered. rewrite length_map, sort_length.
  split; [apply sort_perm|]. split; [reflexivity | apply filter_length_le].
Qed.

(** X10.  With the sort order [asc] and parseable dates the records are
    shown oldest first: each is at most as recent as the next. *)
Theorem X10_ascending_order (projects : list project) (c : controls) :
  sortOrder c = "asc" ->
  (forall p, In p projects -> ~ unparseable p) ->
  date_ascending (filtered projects c).
Proof.
  intros Hs Hp. unfold date_ascending, filtered. rewrite Hs.
  apply Sorted_adjacent, sort_sorted. intros x y Hx Hy.
  apply filter_In in Hx, Hy. destruct Hx as [Hx _], Hy as [Hy _].
  apply Hp in Hx, Hy. unfold unparseable in Hx, Hy.
  unfold JSArray.SortCompare, by_date, le_date. simpl.
  destruct (newDate (date x)) as [tx|]; [|contradiction].
  destruct (newDate (date y)) as [ty|]; [|contradiction].
  simpl. split; intros H; [exists tx, ty | exists ty, tx]; repeat split; lia.
Qed.

(** X11.  With any other value of the sort order, not only [desc], and
    parseable dates the records are shown most recent first. *)
Theorem X11_descending_is_the_default (projects : list project) (c : controls) :
  sortOrder c <> "asc" ->
  (forall p, In p projects -> ~ unparseable p) ->
  date_descending (filtered projects c).
Proof.
  intros Hs Hp. unfold date_descending, filtered.
  apply String.eqb_neq in Hs.
  apply Sorted_adjacent, sort_sorted. intros x y Hx Hy.
  apply filter_In in Hx, Hy. destruct Hx as [Hx _], Hy as [Hy _].
  apply Hp in Hx, Hy. unfold unparseable in Hx, Hy.
  unfold JSArray.SortCompare, by_date, ge_date. rewrite Hs.
  destruct (newDate (date x)) as [tx|]; [|contradiction].
  destruct (newDate (date y)) as [ty|]; [|contradiction].
  simpl. split; intros H; [exists tx, ty | exists ty, tx]; repeat split; lia.
Qed.

(** X12.  When the dates parse, the renderer's sort keeps ties in the
    order of the manifest, in both directions: the records shown that
    carry one and the same timestamp are in the order in which the
    manifest has them. *)
Theorem X12_render_ties_keep_manifest_order
    (projects : list project) (c : controls) (t : Z) :
  (forall p, In p projects -> ~ unparseable p) ->
  filter (has_time t) (filtered projects c) =
  filter (has_time t) (filter (keep (query_of c) (tagFilter c)) projects).
Proof.
  intros _. unfold filtered. apply sort_stable.
  intros x y Hx Hy. apply (has_time_ties t (sortOrder c) x y Hx Hy).
Qed.

(** *** The two directions of the renderer's sort *)

Lemma sort_sorted_pairs {A : Type} (comparefn : A -> A -> option Z)
    (R : A -> A -> Prop) (l : list A) :
  ForallOrdPairs
    (fun x y => (JSArray.SortCompare comparefn x y <= 0 -> R x y) /\
                (0 < JSArray.SortCompare comparefn x y -> R y x)) l ->
  Sorted R (JSArray.sort comparefn l).
Proof.
  induction 1 as [|x l Hx Hl IH]; simpl; [constructor|].
  apply insert_sorted; [|exact IH].
  intros y Hy. apply sort_In in Hy. rewrite Forall_forall in Hx. now apply Hx.
Qed.

Lemma ForallOrdPairs_filter {A : Type} (R : A -> A -> Prop) (f : A -> bool)
    (l : list A) :
  ForallOrdPairs R l -> ForallOrdPairs R (filter f l).
Proof.
  induction 1 as [|x l Hx Hl IH]; simpl; [constructor|].
  destruct (f x); [|exact IH]. constructor; [|exact IH].
  apply Forall_forall. intros y Hy. apply filter_In in Hy.
  rewrite Forall_forall in Hx. now apply Hx.
Qed.

Lemma lt_date_trans (a b c : project) : lt_date a b -> lt_date b c -> lt_date a c.
Proof.
  intros (ta & tb & Ea & Eb & H1) (tb' & tc & Eb' & Ec & H2).
  rewrite Eb in Eb'. injection Eb' as <-. exists ta, tc. repeat split; auto. lia.
Qed.

Lemma StronglySorted_snoc {A : Type} (R : A -> A -> Prop) (l : list A) (x : A) :
  StronglySorted R l -> Forall (fun y => R y x) l -> StronglySorted R (l ++ [x]).
Proof.
  induction 1 as [|y l Hs IH Hy]; intros Hx; simpl.
  - repeat constructor.
  - inversion Hx; subst. constructor; [now apply IH|].
    apply Forall_app. split; [exact Hy | now constructor].
Qed.

Lemma StronglySorted_rev {A : Type} (R : A -> A -> Prop) (l : list A) :
  StronglySorted R l -> StronglySorted (fun a b => R b a) (rev l).
Proof.
  induction 1 as [|x l Hs IH Hx]; simpl; [constructor|].
  apply StronglySorted_snoc; [exact IH|].
  apply Forall_forall. intros y Hy. apply in_rev in Hy.
  rewrite Forall_forall in Hx. now apply Hx.
Qed.

(** Two rearrangements of one list that are both in strictly increasing
    order of date are the same list. *)
Lemma increasing_unique (l1 l2 : list project) :
  Permutation l1 l2 ->
  StronglySorted lt_date l1 -> StronglySorted lt_date l2 -> l1 = l2.
Proof.
  intros Hp H1. revert l2 Hp.
  induction H1 as [|x l1 Hs IH Hx]; intros l2 Hp H2.
  - apply Permutation_nil in Hp. now subst.
  - destruct H2 as [|y l2 Hs2 Hy].
    + apply Permutation_sym, Permutation_nil in Hp. discriminate Hp.
    + assert (E : x = y).
      { assert (Hxin : In x (y :: l2))
          by (apply (Permutation_in _ Hp); now left).
        assert (Hyin : In y (x :: l1))
          by (apply (Permutation_in _ (Permutation_sym Hp)); now left).
        destruct Hxin as [E|Hxin]; [now symmetry|].
        destruct Hyin as [E|Hyin]; [exact E|].
        rewrite Forall_forall in Hx, Hy.
        destruct (Hx y Hyin) as (ta & tb & Ea & Eb & Hlt).
        destruct (Hy x Hxin) as (tb' & ta' & Eb' & Ea' & Hlt').
        rewrite Ea in Ea'. rewrite Eb in Eb'.
        injection Ea' as <-. injection Eb' as <-. lia. }
      subst y. f_equal. apply IH; [|exact Hs2].
      now apply Permutation_cons_inv in Hp.
Qed.

Lemma distinct_sorted (sortVal : string) (l : list project) :
  (forall p, In p l -> ~ unparseable p) -> distinct_dates l ->
  Sorted (fun a b => if String.eqb sortVal "asc" then lt_date a b else lt_date b a)
         (JSArray.sort (by_date sortVal) l).
Proof.
  intros Hp Hd. apply sort_sorted_pairs.
  assert (Hin : forall x y, In x l -> In y l ->
            newDate (date x) <> newDate (date y) ->
            (JSArray.SortCompare (by_date sortVal) x y <= 0 ->
             if String.eqb sortVal "asc" then lt_date x y else lt_date y x) /\
            (0 < JSArray.SortCompare (by_date sortVal) x y ->
             if String.eqb sortVal "asc" then lt_date y x else lt_date x y)).
  { intros x y Hx Hy Hne. apply Hp in Hx, Hy. unfold unparseable in Hx, Hy.
    unfold JSArray.SortCompare, by_date, lt_date.
    destruct (newDate (date x)) as [tx|]; [|contradiction].
    destruct (newDate (date y)) as [ty|]; [|contradiction].
    assert (tx <> ty) by congruence.
    destruct (String.eqb sortVal "asc"); simpl; split; intros H';
      eexists _, _; repeat split; lia. }
  clear Hp. unfold distinct_dates in Hd.
  induction Hd as [|x l Hx Hl IH]; constructor.
  - apply Forall_forall. intros y Hy. rewrite Forall_forall in Hx.
    apply Hin; [now left | now right | now apply Hx].
  - apply IH. intros a b Ha Hb. apply Hin; now right.
Qed.

(** X13.  When the dates are parseable and no two records have the same
    time value, the two sort orders show the same records in opposite
    orders: the list for [asc] is the reverse of the list for any other
    value. *)
Theorem X13_ascending_reverses_descending
    (projects : list project) (text tag sortVal : string) :
  (forall p, In p projects -> ~ unparseable p) -> distinct_dates projects ->
  sortVal <> "asc" ->
  filtered projects {| searchInput := text; tagFilter := tag; sortOrder := "asc" |} =
  rev (filtered projects
         {| searchInput := text; tagFilter := tag; sortOrder := sortVal |}).
Proof.
  intros Hp Hd Hs. unfold filtered, query_of. simpl.
  set (l := filter (keep (Str.toLowerCase (Str.trim text)) tag) projects).
  assert (Hpl : forall p, In p l -> ~ unparseable p)
    by (intros p H; apply filter_In in H; now apply Hp).
  assert (Hdl : distinct_dates l) by now apply ForallOrdPairs_filter.
  pose proof (distinct_sorted "asc" l Hpl Hdl) as Ha.
  pose proof (distinct_sorted sortVal l Hpl Hdl) as Hv.
  apply String.eqb_neq in Hs. rewrite Hs in Hv. simpl in Ha.
  apply increasing_unique.
  - rewrite <- Permutation_rev. rewrite !sort_perm. reflexivity.
  - apply Sorted_StronglySorted; [|exact Ha].
    intros a b c. apply lt_date_trans.
  - apply (StronglySorted_rev (fun a b => lt_date b a)).
    apply Sorted_StronglySorted; [|exact Hv].
    intros a b c H1 H2. exact (lt_date_trans _ _ _ H2 H1).
Qed.

(** *** Further properties of the renderer *)

(** Lower-casing and white space *)

Lemma lower_char_cases (b : ascii) :
  Str.lower_char b = b \/
  (Str.is_letter b = true /\ Str.is_letter (Str.lower_char b) = true).
Proof.
  destruct b as [[] [] [] [] [] [] [] []];
    first [left; reflexivity | right; split; reflexivity].
Qed.

Lemma eqb_lower (a b : ascii) :
  Str.is_letter a = false ->
  Ascii.eqb a (Str.lower_char b) = Ascii.eqb a b.
Proof.
  intros Ha. destruct (lower_char_cases b) as [->|[Hb Hl]]; [reflexivity|].
  destruct (Ascii.eqb a (Str.lower_char b)) eqn:E1.
  - apply Ascii.eqb_eq in E1. congruence.
  - destruct (Ascii.eqb a b) eqn:E2; [|reflexivity].
    apply Ascii.eqb_eq in E2. congruence.
Qed.

Lemma drop_prefix_lower (t s : string) :
  Str.no_letter t = true ->
  Str.drop_prefix t (Str.toLowerCase s) =
  option_map Str.toLowerCase (Str.drop_prefix t s).
Proof.
  revert s. induction t as [|a t IH]; intros s H; simpl; [reflexivity|].
  simpl in H. apply andb_true_iff in H. destruct H as [Ha Ht].
  apply negb_true_iff in Ha.
  destruct s as [|b s]; simpl; [reflexivity|].
  rewrite (eqb_lower a b Ha). destruct (Ascii.eqb a b); [now apply IH | reflexivity].
Qed.

Lemma strip_first_lower (toks : list string) (s : string) :
  forallb Str.no_letter toks = true ->
  Str.strip_first toks (Str.toLowerCase s) =
  option_map Str.toLowerCase (Str.strip_first toks s).
Proof.
  induction toks as [|t toks IH]; simpl; [reflexivity|].
  intros H. apply andb_true_iff in H. destruct H as [Ht Hts].
  rewrite (drop_prefix_lower t s Ht).
  destruct (Str.drop_prefix t s); simpl; [reflexivity | now apply IH].
Qed.

Lemma toLowerCase_length (s : string) :
  String.length (Str.toLowerCase s) = String.length s.
Proof. induction s; simpl; auto. Qed.

Lemma toLowerCase_trimStart_len (n : nat) (s : string) :
  (String.length s <= n)%nat ->
  Str.toLowerCase (Str.trimStart s) = Str.trimStart (Str.toLowerCase s).
Proof.
  revert s. induction n as [|n IH]; intros s Hn.
  - destruct s; [reflexivity | simpl in Hn; lia].
  - rewrite (trimStart_unfold s), (trimStart_unfold (Str.toLowerCase s)).
    rewrite strip_first_lower by reflexivity.
    destruct (Str.strip_first Str.whiteSpace s) as [r|] eqn:E; simpl; [|reflexivity].
    apply strip_first_shorter in E. apply IH. lia.
Qed.

Lemma toLowerCase_trimStart (s : string) :
  Str.toLowerCase (Str.trimStart s) = Str.trimStart (Str.toLowerCase s).
Proof. apply (toLowerCase_trimStart_len (String.length s)). lia. Qed.

Lemma all_ws_lower (s : string) : Str.all_ws (Str.toLowerCase s) = Str.all_ws s.
Proof.
  unfold Str.all_ws. rewrite <- toLowerCase_trimStart.
  destruct (Str.trimStart s); reflexivity.
Qed.

Lemma toLowerCase_trimEnd (s : string) :
  Str.toLowerCase (Str.trimEnd s) = Str.trimEnd (Str.toLowerCase s).
Proof.
  induction s as [|c s IH]; simpl; [reflexivity|].
  change (String (Str.lower_char c) (Str.toLowerCase s))
    with (Str.toLowerCase (String c s)).
  rewrite all_ws_lower. destruct (Str.all_ws (String c s)); simpl; [reflexivity|].
  now rewrite IH.
Qed.

Lemma toLowerCase_trim (s : string) :
  Str.toLowerCase (Str.trim s) = Str.trim (Str.toLowerCase s).
Proof. unfold Str.trim. now rewrite toLowerCase_trimEnd, toLowerCase_trimStart. Qed.

(** X14.  The search does not depend on the case in which the letters A
    to Z are typed: two search texts that are the same once these letters
    are lowered, all other characters being equal, show the same records
    and render the same cards. *)
Theorem X14_search_text_case_is_ignored
    (projects : list project) (q1 q2 tag sortVal : string) :
  Str.toLowerCase q1 = Str.toLowerCase q2 ->
  let ctl text := {| searchInput := text; tagFilter := tag; sortOrder := sortVal |} in
  filtered projects (ctl q1) = filtered projects (ctl q2) /\
  render projects (ctl q1) = render projects (ctl q2).
Proof.
  intros H ctl.
  assert (Hq : query_of (ctl q1) = query_of (ctl q2)).
  { unfold query_of. simpl. now rewrite !toLowerCase_trim, H. }
  unfold render, filtered. rewrite Hq. split; reflexivity.
Qed.

Lemma or_else_spec (o : option string) (dflt : string) :
  (Str.truthy_opt o = false -> Str.or_else o dflt = dflt) /\
  (forall v, o = Some v -> v <> "" -> Str.or_else o dflt = v) /\
  (dflt <> "" -> Str.or_else o dflt <> "").
Proof.
  unfold Str.or_else, Str.truthy_opt. destruct o as [[|a v]|]; simpl.
  - repeat split; auto. intros v Hv Hn. injection Hv as <-. contradiction.
  - repeat split; try discriminate. intros v' Hv _. now injection Hv.
  - repeat split; auto. intros v Hv. discriminate Hv.
Qed.

(** X15.  The image of a card is never empty: it is the screenshot of the
    record when there is one, and the placeholder image when the
    screenshot is absent or the empty string. *)
Theorem X15_image_falls_back_to_placeholder (p : project) :
  img_src (make_card p) <> "" /\
  (Str.truthy_opt (screenshot p) = false ->
   img_src (make_card p) = "placeholder_light_gray_block.png") /\
  (forall v, screenshot p = Some v -> v <> "" -> img_src (make_card p) = v).
Proof.
  unfold make_card. simpl.
  destruct (or_else_spec (screenshot p) "placeholder_light_gray_block.png")
    as (H1 & H2 & H3).
  split; [apply H3; discriminate|]. split; assumption.
Qed.

(** X16.  The link and the title of a card are never empty: a record
    without a URL links to [#], a record without a name is titled with
    the fallback label; and a card has no tag badge exactly when the
    topics of its record are absent or empty. *)
Theorem X16_link_and_title_fall_back (p : project) :
  link_href (make_card p) <> "" /\
  (Str.truthy_opt (url p) = false -> link_href (make_card p) = "#") /\
  card_title (make_card p) <> "" /\
  (Str.truthy_opt (name p) = false -> card_title (make_card p) = "未命名项目") /\
  (tags (make_card p) = [] <-> topics p = None \/ topics p = Some []).
Proof.
  unfold make_card. simpl.
  destruct (or_else_spec (url p) "#") as (H1 & _ & H3).
  destruct (or_else_spec (name p) "未命名项目") as (K1 & _ & K3).
  split; [apply H3; discriminate|]. split; [exact H1|].
  split; [apply K3; discriminate|]. split; [exact K1|].
  destruct (topics p) as [l|]; split; intros H; auto.
  - right. now rewrite H.
  - destruct H as [H|H]; [discriminate H | now injection H].
Qed.

(** X17.  The date label of a card is empty exactly when the date of the
    record is absent or the empty string; for every other date, parseable
    or not, it starts with the prefix. *)
Theorem X17_date_label_empty_iff_no_date (p : project) :
  (update_date (make_card p) = "" <-> Str.truthy_opt (date p) = false) /\
  (forall d, date p = Some d -> d <> "" ->
     update_date (make_card p) = (date_prefix ++ formatDate d)%string).
Proof.
  unfold make_card, Str.truthy_opt. simpl.
  destruct (date p) as [[|a d]|]; simpl; split; try (split; auto; discriminate).
  - intros d Hd Hn. injection Hd as <-. contradiction.
  - intros d' Hd _. injection Hd as <-. reflexivity.
  - intros d Hd. discriminate Hd.
Qed.

(** X18.  [formatDate] returns the empty string exactly for the strings
    that are not dates. *)
Theorem X18_formatDate_empty_iff_invalid (isoString : string) :
  formatDate isoString = "" <-> Date_parse isoString = None.
Proof.
  unfold formatDate. destruct (Date_parse isoString) as [t|]; split; auto.
  - intros H. destruct (Str.ofZ (JSDate.YearFromTime (t + LocalTZA t)));
      discriminate H.
  - discriminate.
Qed.

Lemma all_from_spec (check : Z -> bool) (fuel : nat) (i : Z) :
  all_from check fuel i = true ->
  forall j, i <= j < i + Z.of_nat fuel -> check j = true.
Proof.
  revert i. induction fuel as [|fuel IH]; intros i H j Hj; [lia|].
  simpl in H. apply andb_true_iff in H. destruct H as [Hi Hr].
  destruct (Z.eq_dec j i) as [->|Hne]; [exact Hi|].
  apply (IH (i + 1) Hr). lia.
Qed.

Lemma pads_checked : all_from pads_to_two 31 1 = true.
Proof. vm_compute. reflexivity. Qed.

Lemma year_of_era_bound (doe : Z) :
  0 <= doe < 146097 ->
  0 <= (doe - doe / 1460 + doe / 36524 - doe / 146096) / 365 <= 399.
Proof.
  clear Date_parse LocalTZA env client fs_writeFile path_resolve.
  intros H. Z.div_mod_to_equations. lia.
Qed.

(** The civil date of a day number is that day: its day number is the
    one it was computed from. *)
Lemma civil_roundtrip (days : Z) :
  let '(y, m, d) := JSDate.civil_from_days days in
  JSDate.days_from_civil y m d = days.
Proof.
  clear Date_parse LocalTZA env client fs_writeFile path_resolve.
  unfold JSDate.civil_from_days. cbv beta iota zeta.
  set (z := days + 719468).
  set (era := z / 146097).
  set (doe := z - era * 146097).
  assert (Hr : 0 <= doe < 146097)
    by (unfold doe, era; Z.div_mod_to_equations; lia).
  pose proof (year_of_era_bound doe Hr) as Hy.
  set (yoe := (doe - doe / 1460 + doe / 36524 - doe / 146096) / 365) in *.
  set (doy := doe - (365 * yoe + yoe / 4 - yoe / 100)).
  set (mp := (5 * doy + 2) / 153).
  assert (Hdoy : 0 <= doy <= 365)
    by (unfold doy, yoe; Z.div_mod_to_equations; lia).
  assert (Hmp : 0 <= mp <= 11) by (unfold mp; Z.div_mod_to_equations; lia).
  unfold JSDate.days_from_civil. cbv beta iota zeta.
  destruct (mp <? 10) eqn:Hlt; [apply Z.ltb_lt in Hlt | apply Z.ltb_ge in Hlt].
  - replace (mp + 3 <=? 2) with false by (symmetry; apply Z.leb_gt; lia).
    replace (2 <? mp + 3) with true by (symmetry; apply Z.ltb_lt; lia).
    replace (mp + 3 - 3) with mp by lia.
    replace ((yoe + era * 400) / 400) with era by (Z.div_mod_to_equations; lia).
    replace (yoe + era * 400 - era * 400) with yoe by lia.
    unfold doy, doe, z. lia.
  - replace (mp - 9 <=? 2) with true by (symmetry; apply Z.leb_le; lia).
    replace (2 <? mp - 9) with false by (symmetry; apply Z.ltb_ge; lia).
    replace (mp - 9 + 9) with mp by lia.
    replace (yoe + era * 400 + 1 - 1) with (yoe + era * 400) by lia.
    replace ((yoe + era * 400) / 400) with era by (Z.div_mod_to_equations; lia).
    replace (yoe + era * 400 - era * 400) with yoe by lia.
    unfold doy, doe, z. lia.
Qed.

(** The civil date of a day number is a date of the calendar: the month
    is one of the twelve and the day one of the days of that month. *)
Lemma civil_valid (days : Z) :
  let '(y, m, d) := JSDate.civil_from_days days in
  1 <= m <= 12 /\ 1 <= d <= Iso.days_in_month y m.
Proof.
  clear Date_parse LocalTZA env client fs_writeFile path_resolve.
  unfold JSDate.civil_from_days. cbv beta iota zeta.
  set (z := days + 719468).
  set (era := z / 146097).
  set (doe := z - era * 146097).
  assert (Hr : 0 <= doe < 146097)
    by (unfold doe, era; Z.div_mod_to_equations; lia).
  pose proof (year_of_era_bound doe Hr) as Hy.
  set (yoe := (doe - doe / 1460 + doe / 36524 - doe / 146096) / 365) in *.
  set (doy := doe - (365 * yoe + yoe / 4 - yoe / 100)).
  set (mp := (5 * doy + 2) / 153).
  assert (Hdoy : 0 <= doy <= 365)
    by (unfold doy, yoe; Z.div_mod_to_equations; lia).
  assert (Hmp : 0 <= mp <= 11) by (unfold mp; Z.div_mod_to_equations; lia).
  assert (Hleap : doy = 365 ->
            (yoe + 1) mod 4 = 0 /\ ((yoe + 1) mod 100 <> 0 \/ yoe = 399)).
  { unfold doy, yoe. intros H. Z.div_mod_to_equations. lia. }
  unfold Iso.days_in_month, Iso.leap.
  destruct (mp <? 10) eqn:Hlt; [apply Z.ltb_lt in Hlt | apply Z.ltb_ge in Hlt].
  - replace (mp + 3 <=? 2) with false by (symmetry; apply Z.leb_gt; lia).
    replace (mp + 3 =? 2) with false by (symmetry; apply Z.eqb_neq; lia).
    split; [lia|].
    assert (Hcases : mp = 0 \/ mp = 1 \/ mp = 2 \/ mp = 3 \/ mp = 4 \/ mp = 5 \/
                     mp = 6 \/ mp = 7 \/ mp = 8 \/ mp = 9) by lia.
    unfold mp in *.
    repeat match goal with H : _ \/ _ |- _ => destruct H as [H|H] end;
      rewrite Hcases in *; cbn; Z.div_mod_to_equations; lia.
  - replace (mp - 9 <=? 2) with true by (symmetry; apply Z.leb_le; lia).
    split; [lia|].
    assert (Hm : mp = 10 \/ mp = 11) by lia.
    destruct Hm as [Hm|Hm].
    + rewrite Hm. cbn. unfold mp in Hm. Z.div_mod_to_equations. lia.
    + rewrite Hm. replace (11 - 9 =? 2) with true by reflexivity.
      change ((153 * 11 + 2) / 5) with 337.
      assert (Hd : 337 <= doy) by (unfold mp in Hm; Z.div_mod_to_equations; lia).
      set (y := yoe + era * 400 + 1).
      assert (E4 : y mod 4 = (yoe + 1) mod 4)
        by (unfold y; Z.div_mod_to_equations; lia).
      assert (E100 : y mod 100 = (yoe + 1) mod 100)
        by (unfold y; Z.div_mod_to_equations; lia).
      assert (E400 : y mod 400 = (yoe + 1) mod 400)
        by (unfold y; Z.div_mod_to_equations; lia).
      rewrite E4, E100, E400.
      destruct (Z.eq_dec doy 365) as [H365|H365].
      * destruct (Hleap H365) as [H4 [H100|H399]].
        -- apply Z.eqb_eq in H4. apply Z.eqb_neq in H100.
           rewrite H4, H100. cbn [andb negb orb]. lia.
        -- rewrite H399. change ((399 + 1) mod 400 =? 0) with true.
           rewrite orb_true_r. lia.
      * destruct (((yoe + 1) mod 4 =? 0) && negb ((yoe + 1) mod 100 =? 0)
                  || ((yoe + 1) mod 400 =? 0)); lia.
Qed.

Lemma days_in_month_le (y m : Z) : Iso.days_in_month y m <= 31.
Proof.
  unfold Iso.days_in_month.
  destruct (m =? 2); [destruct (Iso.leap y); lia|].
  destruct ((m =? 4) || (m =? 6) || (m =? 9) || (m =? 11)); lia.
Qed.

Lemma padStart2_length (n : Z) :
  1 <= n <= 31 -> String.length (Str.padStart2 (Str.ofZ n)) = 2%nat.
Proof.
  intros H. apply Nat.eqb_eq.
  apply (all_from_spec pads_to_two 31 1 pads_checked). lia.
Qed.

(** X19.  For a string that is a date [formatDate] returns the year, a
    hyphen, the month, a hyphen and the day that [getFullYear],
    [getMonth() + 1] and [getDate] give for it in local time.  These three
    are the calendar date of the local day: the month is between 1 and 12,
    the day is a day of that month of that year, and the date has the day
    number of the local time.  Month and day are each written with exactly
    two characters. *)
Theorem X19_formatDate_shape (isoString : string) (t : Z) :
  Date_parse isoString = Some t ->
  let local := t + LocalTZA t in
  let y := JSDate.YearFromTime local in
  let m := JSDate.MonthFromTime local + 1 in
  let d := JSDate.DateFromTime local in
  formatDate isoString =
    (Str.ofZ y ++ "-" ++ Str.padStart2 (Str.ofZ m) ++ "-" ++
     Str.padStart2 (Str.ofZ d))%string /\
  1 <= m <= 12 /\ 1 <= d <= Iso.days_in_month y m /\
  JSDate.days_from_civil y m d = JSDate.Day local /\
  String.length (Str.padStart2 (Str.ofZ m)) = 2%nat /\
  String.length (Str.padStart2 (Str.ofZ d)) = 2%nat.
Proof.
  intros Hp local y m d. unfold formatDate. rewrite Hp. fold local.
  pose proof (civil_valid (JSDate.Day local)) as Hv.
  pose proof (civil_roundtrip (JSDate.Day local)) as Hr.
  unfold y, m, d, JSDate.YearFromTime, JSDate.MonthFromTime, JSDate.DateFromTime.
  destruct (JSDate.civil_from_days (JSDate.Day local)) as [[y' m'] d'].
  replace (m' - 1 + 1) with m' by lia.
  destruct Hv as [Hm Hd]. pose proof (days_in_month_le y' m') as Hle.
  repeat split; try lia; try exact Hr; apply padStart2_length; lia.
Qed.

Lemma keep_everything (p : project) : keep "" "" p = true.
Proof. reflexivity. Qed.

Lemma filter_all {A : Type} (f : A -> bool) (l : list A) :
  (forall x, In x l -> f x = true) -> filter f l = l.
Proof.
  induction l as [|x l IH]; intros H; simpl; [reflexivity|].
  rewrite (H x (or_introl eq_refl)), IH; [reflexivity|].
  intros y Hy. apply H. now right.
Qed.

Lemma query_of_blank (c : controls) :
  Str.all_ws (searchInput c) = true -> query_of c = "".
Proof.
  intros H. unfold query_of. now rewrite trim_all_ws.
Qed.

(** X20.  The renderer shows the manifest of the generator as it was
    written: with a blank search text, the choice for all tags and any
    sort order but [asc], the records shown are those of the manifest in
    the order of the file, and every card carries the placeholder image. *)
Theorem X20_manifest_is_shown_as_written (json : list project) (c : controls) :
  (forall owner repos r,
      GitHub.listForUser client owner = GitHub.Ok repos -> In r repos ->
      Date_parse (GitHub.updated_at r) <> None) ->
  In json (written (snd script)) ->
  Str.all_ws (searchInput c) = true -> tagFilter c = "" -> sortOrder c <> "asc" ->
  filtered json c = json /\
  render json c = map make_card json /\
  forall k, In k (render json c) -> img_src k = "placeholder_light_gray_block.png".
Proof.
  intros Hdates Hw Hq Ht Hs.
  destruct (written_manifest json Hw) as (owner & repos & _ & Hl & E).
  assert (Hshape : forall p, In p json ->
            screenshot p = Some "" /\ ~ unparseable p).
  { intros p Hp. rewrite E in Hp. apply sort_In, in_flat_map in Hp.
    destruct Hp as (r & Hr & Hp). apply turn_records_shape in Hp.
    destruct Hp as (_ & cfg & ts & _ & ->). split; [reflexivity|].
    unfold unparseable. simpl. now apply (Hdates owner repos). }
  assert (Hsorted : Sorted ge_date json).
  { rewrite E. apply sort_desc_sorted, Forall_forall. intros p Hp.
    apply Hshape. rewrite E. now apply sort_In. }
  assert (Hf : filtered json c = json).
  { unfold filtered. rewrite (query_of_blank c Hq), Ht.
    rewrite filter_all by (intros; apply keep_everything).
    apply sort_of_sorted, adjacent_Sorted. intros i a b Ha Hb.
    destruct (Sorted_adjacent ge_date json Hsorted i a b Ha Hb)
      as (ta & tb & Ea & Eb & Hge).
    unfold JSArray.SortCompare, by_date. apply String.eqb_neq in Hs.
    rewrite Hs, Ea, Eb. simpl. lia. }
  split; [exact Hf|]. unfold render. rewrite Hf. split; [reflexivity|].
  intros k Hk. apply in_map_iff in Hk. destruct Hk as (p & <- & Hp).
  destruct (Hshape p Hp) as [Hsc _]. unfold make_card. simpl. now rewrite Hsc.
Qed.

(** *** The options of the tag selector *)

Lemma Set_add_In (t x : string) (set : list string) :
  In x (Set_add t set) <-> x = t \/ In x set.
Proof.
  clear Date_parse LocalTZA env client fs_writeFile path_resolve.
  unfold Set_add. destruct (existsb (String.eqb t) set) eqn:He.
  - split; [now right|]. intros [->|H]; [|exact H].
    apply existsb_exists in He. destruct He as (y & Hy & Hey).
    apply String.eqb_eq in Hey. now subst.
  - rewrite in_app_iff. simpl. split.
    + intros [H|[H|[]]]; [now right | now left].
    + intros [->|H]; [right; now left | now left].
Qed.

Lemma Set_add_NoDup (t : string) (set : list string) :
  NoDup set -> NoDup (Set_add t set).
Proof.
  clear Date_parse LocalTZA env client fs_writeFile path_resolve.
  intros H. unfold Set_add. destruct (existsb (String.eqb t) set) eqn:He; [exact H|].
  apply NoDup_app; [exact H | repeat constructor; intros [] |].
  intros x Hx [E|[]]. subst x.
  assert (Ht : existsb (String.eqb t) set = true)
    by (apply existsb_exists; exists t; split; [exact Hx | apply String.eqb_refl]).
  congruence.
Qed.

Lemma add_all_spec (ts set : list string) :
  (forall x, In x (fold_left (fun set' t => Set_add t set') ts set) <->
             In x ts \/ In x set) /\
  (NoDup set -> NoDup (fold_left (fun set' t => Set_add t set') ts set)).
Proof.
  clear Date_parse LocalTZA env client fs_writeFile path_resolve.
  revert set. induction ts as [|t ts IH]; intros set; simpl.
  - split; [intros x; tauto | auto].
  - destruct (IH (Set_add t set)) as [H1 H2]. split.
    + intros x. rewrite H1, Set_add_In. split; intros H; repeat destruct H as [H|H]; auto.
    + intros Hn. apply H2. now apply Set_add_NoDup.
Qed.

Lemma topicSet_from (projects : list project) (set : list string) :
  let step := fun set p =>
    match topics p with
    | Some ts => fold_left (fun set' t => Set_add t set') ts set
    | None => set
    end in
  (forall x, In x (fold_left step projects set) <->
             In x set \/ exists p ts, In p projects /\ topics p = Some ts /\ In x ts) /\
  (NoDup set -> NoDup (fold_left step projects set)).
Proof.
  clear Date_parse LocalTZA env client fs_writeFile path_resolve.
  intros step. revert set. induction projects as [|p ps IH]; intros set; simpl.
  - split; [|auto]. intros x. split; [now left|].
    intros [H|(p & ts & [] & _)]. exact H.
  - destruct (IH (step set p)) as [H1 H2]. split.
    + intros x. rewrite H1. unfold step at 1.
      destruct (topics p) as [ts|] eqn:Et.
      * rewrite (proj1 (add_all_spec ts set)). split.
        -- intros [[H|H]|(q & qs & Hq & Hqt & Hx)].
           ++ right. exists p, ts. auto.
           ++ now left.
           ++ right. exists q, qs. auto.
        -- intros [H|(q & qs & [<-|Hq] & Hqt & Hx)].
           ++ left. now right.
           ++ left. left. congruence.
           ++ right. exists q, qs. auto.
      * split.
        -- intros [H|(q & qs & Hq & Hqt & Hx)]; [now left|].
           right. exists q, qs. auto.
        -- intros [H|(q & qs & [<-|Hq] & Hqt & Hx)]; [now left | congruence |].
           right. exists q, qs. auto.
    + intros Hn. apply H2. unfold step.
      destruct (topics p) as [ts|]; [|exact Hn].
      now apply (proj2 (add_all_spec ts set)).
Qed.

Lemma compare_units_antisym (x y : list Z) :
  Str.compare_units x y = CompOpp (Str.compare_units y x).
Proof.
  clear Date_parse LocalTZA env client fs_writeFile path_resolve.
  revert y. induction x as [|a x IH]; intros [|b y]; simpl; try reflexivity.
  rewrite (Z.compare_antisym a b).
  destruct (a ?= b); simpl; [apply IH | reflexivity | reflexivity].
Qed.

Lemma default_compare_order (x y : string) :
  (JSArray.SortCompare default_compare x y <= 0 -> Str.compare x y <> Gt) /\
  (0 < JSArray.SortCompare default_compare x y -> Str.compare y x <> Gt).
Proof.
  clear Date_parse LocalTZA env client fs_writeFile path_resolve.
  unfold JSArray.SortCompare, default_compare, Str.compare.
  rewrite (compare_units_antisym (Str.codeUnits x) (Str.codeUnits y)).
  destruct (Str.compare_units (Str.codeUnits y) (Str.codeUnits x));
    simpl; split; intros H; try lia; discriminate.
Qed.

Lemma topic_options_In (projects : list project) (t : string) :
  In t (topic_options projects) <->
  exists p ts, In p projects /\ topics p = Some ts /\ In t ts.
Proof.
  clear Date_parse LocalTZA env client fs_writeFile path_resolve.
  unfold topic_options, topicSet. rewrite sort_In.
  rewrite (proj1 (topicSet_from projects []) t). split.
  - intros [[]|H]. exact H.
  - intros H. now right.
Qed.

(** X21.  The tag selector offers exactly the topics of the manifest: a
    string is among the options if and only if some record has it in its
    topics array. *)
Theorem X21_options_are_the_topics (projects : list project) (t : string) :
  In t (topic_options projects) <->
  exists p ts, In p projects /\ topics p = Some ts /\ In t ts.
Proof.
  clear Date_parse LocalTZA env client fs_writeFile path_resolve.
  apply topic_options_In.
Qed.

(** X22.  The options of the tag selector are sorted by their UTF-16
    code units, as [sort()] without a comparator orders strings, and none
    is offered twice: of two adjacent options the first is not above the
    second, and they differ. *)
Theorem X22_options_sorted_without_repeats (projects : list project) :
  strictly_increasing (topic_options projects) /\ NoDup (topic_options projects).
Proof.
  clear Date_parse LocalTZA env client fs_writeFile path_resolve.
  assert (Hn : NoDup (topic_options projects)).
  { unfold topic_options, topicSet.
    apply (Permutation_NoDup (l := topicSet projects)).
    - symmetry. apply sort_perm.
    - unfold topicSet. apply (proj2 (topicSet_from projects [])). constructor. }
  split; [|exact Hn].
  intros i a b Ha Hb. split.
  - intros E. subst b.
    assert (Hi : (i < List.length (topic_options projects))%nat)
      by (apply nth_error_Some; congruence).
    pose proof (proj1 (NoDup_nth_error _) Hn i (S i) Hi) as Heq.
    rewrite Ha, Hb in Heq. specialize (Heq eq_refl). lia.
  - revert i a b Ha Hb. apply Sorted_adjacent. unfold topic_options.
    apply sort_sorted. intros x y _ _. apply default_compare_order.
Qed.

(** X23.  No option of the tag selector leads to an empty grid: with a
    blank search text, selecting an offered tag shows at least one
    record, and every record shown has the tag among its topics. *)
Theorem X23_offered_tag_shows_a_record
    (projects : list project) (t w sortVal : string) :
  In t (topic_options projects) -> Str.all_ws w = true -> t <> "" ->
  let c := {| searchInput := w; tagFilter := t; sortOrder := sortVal |} in
  (exists p, In p (filtered projects c)) /\
  (forall p, In p (filtered projects c) -> exists ts, topics p = Some ts /\ In t ts).
Proof.
  clear LocalTZA env client fs_writeFile path_resolve.
  intros Ht Hw Hne c.
  assert (Hq : query_of c = "") by now apply query_of_blank.
  unfold filtered. rewrite Hq. simpl. split.
  - apply topic_options_In in Ht. destruct Ht as (p & ts & Hp & Hts & Hin).
    exists p. apply sort_In, filter_In. split; [exact Hp|].
    apply (keep_spec "" t p). split; [now left|]. right. now exists ts.
  - intros p Hp. apply sort_In, filter_In in Hp. destruct Hp as [_ Hk].
    apply (keep_spec "" t p) in Hk. destruct Hk as [_ [He|H]]; [contradiction | exact H].
Qed.

(** *** Loading the manifest *)

(** X24.  [loadProjects] fills the page only from a response whose status
    is in the range 200-299 and whose body is a manifest; every other
    outcome of the fetch logs one error and leaves the tag selector and
    the grid empty, and for a status out of the range the body is not read,
    whatever it is. *)
Theorem X24_load_failure_leaves_page_empty (f : fetched) (c : controls) :
  (console_errors (loadProjects f c) = [] <->
   exists status data,
     f = Response status (Json data) /\ 200 <= status <= 299) /\
  (forall status data,
     f = Response status (Json data) -> 200 <= status <= 299 ->
     grid (loadProjects f c) = render data c /\
     tag_options (loadProjects f c) = topic_options data) /\
  (console_errors (loadProjects f c) <> [] ->
   exists err, loadProjects f c = failed err) /\
  (forall status b,
     f = Response status b -> status < 200 \/ 299 < status ->
     loadProjects f c = failed (http_error_message status)).
Proof.
  unfold loadProjects, res_ok. repeat split.
  - destruct f as [err|status [data|err]]; simpl; try discriminate.
    + destruct ((200 <=? status) && (status <=? 299)) eqn:Hs; simpl;
        [|discriminate].
      intros _. exists status, data. split; [reflexivity|].
      apply andb_true_iff in Hs. destruct Hs as [H1 H2].
      apply Z.leb_le in H1, H2. lia.
    + destruct ((200 <=? status) && (status <=? 299)); discriminate.
  - intros (status & data & -> & H1 & H2).
    apply Z.leb_le in H1, H2. rewrite H1, H2. reflexivity.
  - destruct H0 as [H1 H2]. subst f.
    apply Z.leb_le in H1, H2. rewrite H1, H2. reflexivity.
  - destruct H0 as [H1 H2]. subst f.
    apply Z.leb_le in H1, H2. rewrite H1, H2. reflexivity.
  - intros Hne. destruct f as [err|status [data|err]]; simpl in *.
    + now exists err.
    + destruct ((200 <=? status) && (status <=? 299)); simpl in *;
        [contradiction | eexists; reflexivity].
    + destruct ((200 <=? status) && (status <=? 299)); simpl;
        eexists; reflexivity.
  - intros status b -> Hs.
    assert (E : (200 <=? status) && (status <=? 299) = false).
    { apply andb_false_iff. destruct Hs as [Hs|Hs];
        [left; apply Z.leb_gt | right; apply Z.leb_gt]; lia. }
    now rewrite E.
Qed.

End Program.

(** ** The definitions at work *)

Example lower_ex : Str.toLowerCase "Hello, World" = "hello, world".
Proof. reflexivity. Qed.

Example trim_ex : Str.trim "  a b  " = "a b".
Proof. reflexivity. Qed.

(** U+3000, SP, [a b], U+00A0, TAB. *)
Example trim_unicode_ex :
  Str.trim (Str.bytes [227; 128; 128; 32; 97; 32; 98; 194; 160; 9]%nat) = "a b".
Proof. reflexivity. Qed.

(** U+1F600 is the pair D83D DE00, below the unit FF5E of U+FF5E. *)
Example compare_units_ex :
  Str.codeUnits (Str.bytes [240; 159; 152; 128]%nat) = [55357; 56832] /\
  Str.compare (Str.bytes [240; 159; 152; 128]%nat) (Str.bytes [239; 189; 158]%nat) = Lt.
Proof. split; reflexivity. Qed.

Example includes_ex : Str.includes "pages-index" "s-i" = true.
Proof. reflexivity. Qed.

Example parse_date_only : Iso.parse "2023-01-01" = Some 1672531200000.
Proof. reflexivity. Qed.

Example parse_date_time : Iso.parse "2024-02-29T12:34:56Z" = Some 1709210096000.
Proof. reflexivity. Qed.

Example parse_not_a_date : Iso.parse "not-a-date" = None.
Proof. reflexivity. Qed.

Example formatDate_ex :
  formatDate Iso.parse Iso.utc "2024-02-29T12:34:56Z" = "2024-02-29".
Proof. reflexivity. Qed.

(** The run over the sample account: the fork is passed over without a
    request, the 404 is silent, the 500 and the topics failure are warned
    about, and two records are written, the more recent first. *)
Example sample_run :
  script Iso.parse Sample.env Sample.client Sample.fs_writeFile Sample.path_resolve =
  (0,
   [Effect.ListForUser "octo" 100;
    Effect.GetPages "octo" "site"; Effect.GetAllTopics "octo" "site";
    Effect.GetPages "octo" "nopages";
    Effect.GetPages "octo" "broken";
    Effect.ConsoleWarn "获取仓库 broken pages 配置失败: Server Error";
    Effect.GetPages "octo" "docs"; Effect.GetAllTopics "octo" "docs";
    Effect.ConsoleWarn "获取仓库 docs topics 失败: rate limit exceeded";
    Effect.WriteFile "/work/projects.json" Sample.manifest;
    Effect.ConsoleLog "已生成 2 个项目并写入 /work/projects.json"]).
Proof. reflexivity. Qed.

(** The example of the specification: searching, filtering by tag and
    sorting a manifest of two records. *)
Example spec_search_a :
  filtered Iso.parse [Sample.A; Sample.B] (Sample.ctl "a" "" "desc") = [Sample.A].
Proof. reflexivity. Qed.

Example search_after_ideographic_space :
  filtered Iso.parse [Sample.A; Sample.B]
           (Sample.ctl (Str.bytes [227; 128; 128; 97]%nat) "" "desc") = [Sample.A].
Proof. reflexivity. Qed.

Example spec_tag_y :
  filtered Iso.parse [Sample.A; Sample.B] (Sample.ctl "" "y" "desc") = [Sample.B].
Proof. reflexivity. Qed.

Example spec_sort_asc :
  filtered Iso.parse [Sample.A; Sample.B] (Sample.ctl "" "" "asc") = [Sample.A; Sample.B].
Proof. reflexivity. Qed.

Example spec_sort_desc :
  filtered Iso.parse [Sample.A; Sample.B] (Sample.ctl "" "" "desc") = [Sample.B; Sample.A].
Proof. reflexivity. Qed.

(** ** The properties on the samples *)

Lemma sample_written :
  In Sample.manifest
     (written (snd (script Iso.parse Sample.env Sample.client
                           Sample.fs_writeFile Sample.path_resolve))).
Proof. left. reflexivity. Defined.

Lemma sample_dates_parse (owner : string) (repos : list GitHub.repository)
    (r : GitHub.repository) :
  GitHub.listForUser Sample.client owner = GitHub.Ok repos -> In r repos ->
  Iso.parse (GitHub.updated_at r) <> None.
Proof.
  simpl. destruct (String.eqb owner "octo"); [|discriminate].
  intros H. injection H as <-. simpl.
  intros [<-|[<-|[<-|[<-|[<-|[]]]]]]; discriminate.
Defined.


Lemma C2_witness :
  (forall owner repos r,
      GitHub.listForUser Sample.client owner = GitHub.Ok repos -> In r repos ->
      Iso.parse (GitHub.updated_at r) <> None) /\
  In Sample.manifest
     (written (snd (script Iso.parse Sample.env Sample.client
                           Sample.fs_writeFile Sample.path_resolve))) /\
  date_descending Iso.parse Sample.manifest.
Proof.
  split; [exact sample_dates_parse|]. split; [exact sample_written|].
  exact (C2_manifest_sorted_descending Iso.parse Sample.env Sample.client
           Sample.fs_writeFile Sample.path_resolve sample_dates_parse
           Sample.manifest sample_written).
Defined.


Lemma C4_witness :
  (GitHub.fork Sample.forked = true \/ GitHub.archived Sample.forked = true) /\
  GitHub.getPages Sample.client "octo" (GitHub.name Sample.forked) =
    GitHub.Ok (Sample.page_of "forked") /\
  loop_body Sample.client "octo" Sample.forked [Sample.site_record] =
    (Effect.Normal [Sample.site_record], []) /\
  for_of Sample.client "octo" ([Sample.site] ++ Sample.forked :: [Sample.docs]) [] =
  for_of Sample.client "octo" ([Sample.site] ++ [Sample.docs]) [].
Proof.
  split; [left; reflexivity|]. split; [reflexivity|].
  pose proof (C4_fork_or_archived_emits_nothing Iso.parse Sample.env Sample.client
                Sample.fs_writeFile Sample.path_resolve "octo" Sample.forked
                [Sample.site_record] [Sample.site] [Sample.docs]
                (or_introl eq_refl)) as [H1 _].
  pose proof (C4_fork_or_archived_emits_nothing Iso.parse Sample.env Sample.client
                Sample.fs_writeFile Sample.path_resolve "octo" Sample.forked
                [] [Sample.site] [Sample.docs]
                (or_introl eq_refl)) as [_ [H2 _]].
  split; [exact H1 | exact H2].
Defined.


Lemma C6_witness :
  (GITHUB_USER Sample.env_without_token = None \/
   GITHUB_TOKEN Sample.env_without_token = None) /\
  exists msg,
    (msg = no_user_message \/ msg = no_token_message) /\
    script Iso.parse Sample.env_without_token Sample.client
           Sample.fs_writeFile Sample.path_resolve =
      (1, [Effect.ConsoleError (Effect.Text msg)]) /\
    fst (script Iso.parse Sample.env_without_token Sample.client
                Sample.fs_writeFile Sample.path_resolve) <> 0 /\
    existsb Effect.is_network
      (snd (script Iso.parse Sample.env_without_token Sample.client
                   Sample.fs_writeFile Sample.path_resolve)) = false.
Proof.
  split; [right; reflexivity|].
  exact (C6_missing_credentials_fatal Iso.parse Sample.env_without_token
           Sample.client Sample.fs_writeFile Sample.path_resolve
           (or_intror eq_refl)).
Defined.

(** C7 as stated fails.  A record with an unparseable date that comes
    first stays first, before a record whose date parses, in the sort of
    the generator and in both sorts of the renderer. *)
Lemma C7_counterexample_unparseable_first :
  ~ unparseable_last Iso.parse
      (JSArray.sort (by_date_desc Iso.parse) [Sample.X; Sample.A]) /\
  ~ unparseable_last Iso.parse
      (filtered Iso.parse [Sample.X; Sample.A] (Sample.ctl "" "" "desc")) /\
  ~ unparseable_last Iso.parse
      (filtered Iso.parse [Sample.X; Sample.A] (Sample.ctl "" "" "asc")).
Proof.
  repeat split; intros H;
    apply (Nat.nlt_0_r 1), (H 0%nat 1%nat Sample.X Sample.A);
    try reflexivity; intros U; discriminate U.
Qed.

Lemma C7_witness :
  In Sample.X [Sample.A; Sample.X; Sample.A] /\
  unparseable Iso.parse Sample.X /\
  (forall p, In p [Sample.A; Sample.X; Sample.A] ->
     unparseable Iso.parse p \/ newDate Iso.parse (date p) = Some 1672531200000) /\
  JSArray.sort (by_date_desc Iso.parse) [Sample.A; Sample.X; Sample.A] =
    [Sample.A; Sample.X; Sample.A] /\
  JSArray.sort (by_date Iso.parse "asc") [Sample.A; Sample.X; Sample.A] =
    [Sample.A; Sample.X; Sample.A] /\
  nth_error (JSArray.sort (by_date_desc Iso.parse) [Sample.A; Sample.X; Sample.A])
            1 = Some Sample.X.
Proof.
  assert (Hin : In Sample.X [Sample.A; Sample.X; Sample.A])
    by (right; left; reflexivity).
  assert (Hl : forall p, In p [Sample.A; Sample.X; Sample.A] ->
                unparseable Iso.parse p \/
                newDate Iso.parse (date p) = Some 1672531200000).
  { intros p [<-|[<-|[<-|[]]]]; [right | left | right]; reflexivity. }
  pose proof (C7_unparseable_date_ties Iso.parse [Sample.A; Sample.X; Sample.A]
                Sample.X 1672531200000 Hin eq_refl Hl) as [_ [H1 [H2 H3]]].
  split; [exact Hin|]. split; [reflexivity|]. split; [exact Hl|].
  split; [exact H1|]. split; [exact (H2 "asc")|].
  exact (proj1 (H3 1%nat eq_refl)).
Defined.

(** C8, what the code does.  For a record whose date is present and not
    parseable [formatDate] returns the empty string, and the label of the
    card is the prefix that the template puts before it: not the empty
    string. *)
Theorem C8_unparseable_date_label_keeps_prefix :
  formatDate Iso.parse Iso.utc "not-a-date" = "" /\
  update_date (make_card Iso.parse Iso.utc Sample.X) = "更新于 " /\
  update_date (make_card Iso.parse Iso.utc Sample.X) <> "".
Proof.
  split; [reflexivity|]. split; [reflexivity | discriminate].
Qed.

Lemma C9_witness :
  In Sample.manifest
     (written (snd (script Iso.parse Sample.env Sample.client
                           Sample.fs_writeFile Sample.path_resolve))) /\
  In Sample.docs_record Sample.manifest /\
  name Sample.docs_record = repo Sample.docs_record /\
  screenshot Sample.docs_record = Some "".
Proof.
  split; [exact sample_written|]. split; [left; reflexivity|].
  pose proof (C9_name_is_repo_and_screenshot_empty Iso.parse Sample.env
                Sample.client Sample.fs_writeFile Sample.path_resolve
                Sample.manifest Sample.docs_record sample_written
                (or_introl eq_refl)) as [H1 [H2 _]].
  split; [exact H1 | exact H2].
Defined.

Lemma C10_witness :
  Str.all_ws (Str.bytes [227; 128; 128; 32]%nat) = true /\
  Str.all_ws (Str.bytes [194; 160; 9]%nat) = true /\
  filtered Iso.parse [Sample.A; Sample.B]
    (Sample.ctl (Str.bytes [227; 128; 128; 32]%nat ++ "a" ++
                 Str.bytes [194; 160; 9]%nat) "" "desc") =
  filtered Iso.parse [Sample.A; Sample.B] (Sample.ctl "a" "" "desc").
Proof.
  split; [reflexivity|]. split; [reflexivity|].
  exact (proj1 (C10_search_text_is_trimmed Iso.parse Iso.utc [Sample.A; Sample.B]
                  (Str.bytes [227; 128; 128; 32]%nat) "a"
                  (Str.bytes [194; 160; 9]%nat) "" "desc" eq_refl eq_refl)).
Defined.

(** ** The further properties on the samples *)

Example topic_options_ex :
  topic_options [Sample.A; Sample.C; Sample.B] = ["a"; "x"; "y"].
Proof. reflexivity. Qed.

Lemma sample_AB_parse (p : project) :
  In p [Sample.B; Sample.A] -> ~ unparseable Iso.parse p.
Proof. intros [<-|[<-|[]]] U; discriminate U. Defined.

Lemma sample_AB_distinct : distinct_dates Iso.parse [Sample.B; Sample.A].
Proof.
  repeat first [constructor | (intros U; vm_compute in U; discriminate U)].
Defined.

Lemma X1_witness :
  GITHUB_USER Sample.env = Some "octo" /\
  GitHub.listForUser Sample.client_down "octo" = GitHub.Fail Sample.server_error /\
  script Iso.parse Sample.env Sample.client_down Sample.fs_writeFile
         Sample.path_resolve =
    (1, [Effect.ListForUser "octo" 100;
         Effect.ConsoleError (Effect.ErrorObject Sample.server_error)]).
Proof.
  split; [reflexivity|]. split; [reflexivity|].
  exact (proj1 (X1_listing_failure_is_fatal Iso.parse Sample.env Sample.client_down
                  Sample.fs_writeFile Sample.path_resolve "octo"
                  Sample.server_error eq_refl eq_refl eq_refl eq_refl)).
Defined.

Lemma X2_witness :
  (forall path json, Sample.fs_fails path json = GitHub.Fail Sample.disk_full) /\
  fst (script Iso.parse Sample.env Sample.client Sample.fs_fails
              Sample.path_resolve) = 1 /\
  (forall msg,
     ~ In (Effect.ConsoleLog msg)
          (snd (script Iso.parse Sample.env Sample.client Sample.fs_fails
                       Sample.path_resolve))).
Proof.
  split; [reflexivity|].
  pose proof (X2_write_failure_is_fatal Iso.parse Sample.env Sample.client
                Sample.fs_fails Sample.path_resolve "octo" "secret" Sample.repos
                Sample.disk_full eq_refl eq_refl eq_refl eq_refl eq_refl
                (fun _ _ => eq_refl)) as [H1 [_ H3]].
  split; [exact H1 | exact H3].
Defined.

Lemma X3_witness :
  (Str.truthy_opt (GITHUB_USER Sample.env_empty_user) = false \/
   Str.truthy_opt (GITHUB_TOKEN Sample.env_empty_user) = false) /\
  script Iso.parse Sample.env_empty_user Sample.client Sample.fs_writeFile
         Sample.path_resolve =
    (1, [Effect.ConsoleError (Effect.Text no_user_message)]).
Proof.
  split; [left; reflexivity|].
  exact (X3_empty_credential_is_missing Iso.parse Sample.env_empty_user
           Sample.client Sample.fs_writeFile Sample.path_resolve
           (or_introl eq_refl)).
Defined.

Lemma X4_witness :
  GitHub.listForUser Sample.client "octo" = GitHub.Ok Sample.repos /\
  fst (script Iso.parse Sample.env Sample.client Sample.fs_writeFile
              Sample.path_resolve) = 0 /\
  exists mid json,
    snd (script Iso.parse Sample.env Sample.client Sample.fs_writeFile
                Sample.path_resolve) =
      Effect.ListForUser "octo" 100 :: mid ++
      [Effect.WriteFile (Sample.path_resolve "projects.json") json;
       Effect.ConsoleLog (done_message (List.length json)
                                       (Sample.path_resolve "projects.json"))] /\
    written mid = [] /\
    List.length json =
      List.length (filter (eligible Sample.client "octo") Sample.repos).
Proof.
  split; [reflexivity|].
  exact (X4_successful_run_reports_count Iso.parse Sample.env Sample.client
           Sample.fs_writeFile Sample.path_resolve "octo" "secret" Sample.repos
           eq_refl eq_refl eq_refl eq_refl eq_refl (fun _ _ => eq_refl)).
Defined.

Lemma X5_witness :
  In Sample.manifest
     (written (snd (script Iso.parse Sample.env Sample.client
                           Sample.fs_writeFile Sample.path_resolve))) /\
  exists owner repos,
    GitHub.listForUser Sample.client owner = GitHub.Ok repos /\
    List.length Sample.manifest =
      List.length (filter (eligible Sample.client owner) repos) /\
    forall r cfg,
      In r repos -> flagged r = false ->
      GitHub.getPages Sample.client owner (GitHub.name r) = GitHub.Ok cfg ->
      In (make_project r (GitHub.html_url cfg)
                       (topics_or_empty Sample.client owner r))
         Sample.manifest.
Proof.
  split; [exact sample_written|].
  exact (X5_manifest_is_complete Iso.parse Sample.env Sample.client
           Sample.fs_writeFile Sample.path_resolve Sample.manifest sample_written).
Defined.

Lemma X6_witness :
  In Sample.manifest
     (written (snd (script Iso.parse Sample.env Sample.client
                           Sample.fs_writeFile Sample.path_resolve))) /\
  In Sample.docs_record Sample.manifest /\
  exists owner repos r cfg,
    GitHub.listForUser Sample.client owner = GitHub.Ok repos /\ In r repos /\
    GitHub.getPages Sample.client owner (GitHub.name r) = GitHub.Ok cfg /\
    url Sample.docs_record = GitHub.html_url cfg /\
    date Sample.docs_record = Some (GitHub.updated_at r) /\
    description Sample.docs_record =
      Some (match GitHub.description r with Some d => d | None => "" end) /\
    topics Sample.docs_record = Some (topics_or_empty Sample.client owner r).
Proof.
  split; [exact sample_written|]. split; [left; reflexivity|].
  exact (X6_record_fields Iso.parse Sample.env Sample.client
           Sample.fs_writeFile Sample.path_resolve Sample.manifest
           Sample.docs_record sample_written (or_introl eq_refl)).
Defined.

Lemma X7_witness :
  GitHub.listForUser Sample.client "octo" = GitHub.Ok Sample.repos /\
  pages_requests (snd (script Iso.parse Sample.env Sample.client
                              Sample.fs_writeFile Sample.path_resolve)) =
    ["site"; "nopages"; "broken"; "docs"] /\
  topics_requests (snd (script Iso.parse Sample.env Sample.client
                               Sample.fs_writeFile Sample.path_resolve)) =
    ["site"; "docs"].
Proof.
  split; [reflexivity|].
  exact (X7_requests_per_repository Iso.parse Sample.env Sample.client
           Sample.fs_writeFile Sample.path_resolve "octo" "secret" Sample.repos
           eq_refl eq_refl eq_refl eq_refl eq_refl).
Defined.

Lemma X8_witness :
  (forall owner repos r,
      GitHub.listForUser Sample.client owner = GitHub.Ok repos -> In r repos ->
      Iso.parse (GitHub.updated_at r) <> None) /\
  In Sample.manifest
     (written (snd (script Iso.parse Sample.env Sample.client
                           Sample.fs_writeFile Sample.path_resolve))) /\
  exists owner repos,
    GitHub.listForUser Sample.client owner = GitHub.Ok repos /\
    map repo (filter (has_time Iso.parse 1672531200000) Sample.manifest) =
    map (fun r => Some (GitHub.name r))
        (filter (fun r => eligible Sample.client owner r &&
                          match Iso.parse (GitHub.updated_at r) with
                          | Some u => u =? 1672531200000
                          | None => false
                          end) repos).
Proof.
  split; [exact sample_dates_parse|]. split; [exact sample_written|].
  exact (X8_generator_ties_keep_listing_order Iso.parse Sample.env Sample.client
           Sample.fs_writeFile Sample.path_resolve Sample.manifest
           1672531200000 sample_dates_parse sample_written).
Defined.

Lemma sample_CAB_parse (p : project) :
  In p [Sample.C; Sample.A; Sample.B] -> ~ unparseable Iso.parse p.
Proof. intros [<-|[<-|[<-|[]]]] U; discriminate U. Defined.

Lemma X12_witness :
  (forall p, In p [Sample.C; Sample.A; Sample.B] -> ~ unparseable Iso.parse p) /\
  filtered Iso.parse [Sample.C; Sample.A; Sample.B] (Sample.ctl "" "" "asc") =
    [Sample.A; Sample.C; Sample.B] /\
  filter (has_time Iso.parse 1685577600000)
         (filtered Iso.parse [Sample.C; Sample.A; Sample.B] (Sample.ctl "" "" "asc")) =
    [Sample.C; Sample.B].
Proof.
  split; [exact sample_CAB_parse|]. split; [reflexivity|].
  exact (X12_render_ties_keep_manifest_order Iso.parse
           [Sample.C; Sample.A; Sample.B] (Sample.ctl "" "" "asc")
           1685577600000 sample_CAB_parse).
Defined.

Lemma X10_witness :
  sortOrder (Sample.ctl "" "" "asc") = "asc" /\
  (forall p, In p [Sample.B; Sample.A] -> ~ unparseable Iso.parse p) /\
  date_ascending Iso.parse
    (filtered Iso.parse [Sample.B; Sample.A] (Sample.ctl "" "" "asc")).
Proof.
  split; [reflexivity|]. split; [exact sample_AB_parse|].
  exact (X10_ascending_order Iso.parse [Sample.B; Sample.A]
           (Sample.ctl "" "" "asc") eq_refl sample_AB_parse).
Defined.

Lemma X11_witness :
  sortOrder (Sample.ctl "" "" "newest") <> "asc" /\
  (forall p, In p [Sample.B; Sample.A] -> ~ unparseable Iso.parse p) /\
  date_descending Iso.parse
    (filtered Iso.parse [Sample.B; Sample.A] (Sample.ctl "" "" "newest")).
Proof.
  assert (H : sortOrder (Sample.ctl "" "" "newest") <> "asc")
    by (intros U; discriminate U).
  split; [exact H|]. split; [exact sample_AB_parse|].
  exact (X11_descending_is_the_default Iso.parse [Sample.B; Sample.A]
           (Sample.ctl "" "" "newest") H sample_AB_parse).
Defined.

Lemma X13_witness :
  distinct_dates Iso.parse [Sample.B; Sample.A] /\
  filtered Iso.parse [Sample.B; Sample.A] (Sample.ctl "" "" "asc") =
  rev (filtered Iso.parse [Sample.B; Sample.A] (Sample.ctl "" "" "desc")).
Proof.
  split; [exact sample_AB_distinct|].
  refine (X13_ascending_reverses_descending Iso.parse [Sample.B; Sample.A]
            "" "" "desc" sample_AB_parse sample_AB_distinct _).
  intros U; discriminate U.
Defined.

Lemma X14_witness :
  Str.toLowerCase "B" = Str.toLowerCase "b" /\
  filtered Iso.parse [Sample.A; Sample.B] (Sample.ctl "B" "" "desc") =
  filtered Iso.parse [Sample.A; Sample.B] (Sample.ctl "b" "" "desc").
Proof.
  split; [reflexivity|].
  exact (proj1 (X14_search_text_case_is_ignored Iso.parse Iso.utc
                  [Sample.A; Sample.B] "B" "b" "" "desc" eq_refl)).
Defined.

Lemma X19_witness :
  Iso.parse "2024-02-29T12:34:56Z" = Some 1709210096000 /\
  formatDate Iso.parse Iso.utc "2024-02-29T12:34:56Z" = "2024-02-29" /\
  JSDate.days_from_civil 2024 2 29 = JSDate.Day 1709210096000 /\
  29 <= Iso.days_in_month 2024 2.
Proof.
  split; [reflexivity|].
  pose proof (X19_formatDate_shape Iso.parse Iso.utc "2024-02-29T12:34:56Z"
                1709210096000 eq_refl) as [H1 [_ [[_ H3] [H4 _]]]].
  split; [exact H1|]. split; [exact H4 | exact H3].
Defined.

Lemma X20_witness :
  Str.all_ws (searchInput (Sample.ctl "  " "" "desc")) = true /\
  filtered Iso.parse Sample.manifest (Sample.ctl "  " "" "desc") = Sample.manifest /\
  render Iso.parse Iso.utc Sample.manifest (Sample.ctl "  " "" "desc") =
    map (make_card Iso.parse Iso.utc) Sample.manifest.
Proof.
  split; [reflexivity|].
  assert (H : sortOrder (Sample.ctl "  " "" "desc") <> "asc")
    by (intros U; discriminate U).
  pose proof (X20_manifest_is_shown_as_written Iso.parse Iso.utc Sample.env
                Sample.client Sample.fs_writeFile Sample.path_resolve
                Sample.manifest (Sample.ctl "  " "" "desc")
                sample_dates_parse sample_written eq_refl eq_refl H)
    as [H1 [H2 _]].
  split; [exact H1 | exact H2].
Defined.

Lemma X23_witness :
  In "x" (topic_options [Sample.A; Sample.C; Sample.B]) /\
  Str.all_ws " " = true /\
  exists p, In p (filtered Iso.parse [Sample.A; Sample.C; Sample.B]
                           (Sample.ctl " " "x" "desc")).
Proof.
  assert (Hin : In "x" (topic_options [Sample.A; Sample.C; Sample.B]))
    by (right; left; reflexivity).
  assert (Hne : "x" <> "") by (intros U; discriminate U).
  split; [exact Hin|]. split; [reflexivity|].
  exact (proj1 (X23_offered_tag_shows_a_record Iso.parse
                  [Sample.A; Sample.C; Sample.B] "x" " " "desc"
                  Hin eq_refl Hne)).
Defined.
